(** * The NATS jobs driver of roadrunner-nats-plugin, as a shallow embedding

    The Go package [natsjobs] (src/natsjobs/unpack.go, src/natsjobs/config.go)
    is a job-queue driver on top of NATS JetStream.  This development embeds

    - the item unpacker ([unpack]),
    - production and requeue ([Push], [requeue]),
    - the listener life cycle ([Run], [Pause], [Resume]) and [State],
    - configuration defaults and the two constructors
      ([InitDefaults], [FromConfig], [FromPipeline]),

    and proves what the driver does on them.

    Conventions.  A Go method on [*Driver] is a computation in the monad [M],
    whose state is the receiver together with the trace of calls the method
    made to its collaborators (logger, JetStream, subscription, ...).  The
    answers of the collaborators come from an environment [Env]; each answer
    may depend on everything that happened before.  A Go [error] result is an
    [option error] ([None] is [nil]); a [(T, error)] result is a [result T];
    a run-time panic (nil dereference, channel size out of range) is
    [Panicked]; a call that waits forever, on a channel nobody reads, is
    [Blocked].
    Fixed-width integers are [Z] with the wrap-around written out.  Only the
    message of a log entry is kept, not its zap fields (the time stamps read
    by [time.Now] appear nowhere else). *)

From Stdlib Require Import ZArith NArith String Ascii List Bool Lia.
From Stdlib Require Import Decimal DecimalString.
From stdpp Require Import base strings gmap.

Import ListNotations.
Local Open Scope Z_scope.
Local Open Scope string_scope.

(** ** Errors and results *)

(** Values of Go's [error]: [errors.Str]/[errors.Errorf] build a message,
    [errors.E op err] tags an error with the operation, and the libraries
    return errors of their own. *)
Inductive error : Type :=
| Str (msg : string)
| E (op : string) (cause : error)
| ErrStreamNotFound
| Foreign (what : string).

(** [errors.Errorf] with one [%s] verb at the end of the format. *)
Definition Errorf (format_prefix arg : string) : error :=
  Str (format_prefix +:+ arg).

Inductive result (A : Type) : Type :=
| Ok (a : A)
| Err (e : error).
Arguments Ok {A} a.
Arguments Err {A} e.

(** ** The host API: jobs and pipelines *)

(** [jobs.Job] is an interface; the driver reads [Delay()] and hands the job
    to [json.Marshal], which runs the marshaller of the job's dynamic type. *)
Class Job (J : Type) : Type := {
  Delay : J -> Z;
  MarshalJSON : J -> result (list Byte.byte)
}.

Module jobs.

(** The methods of [jobs.Pipeline] the driver calls. *)
Record Pipeline : Type := {
  Name : string;
  Driver : string;
  Priority : Z;
  String : string -> string -> string;
  Int : string -> Z -> Z;
  Bool : string -> bool -> bool
}.

Record State : Type := {
  st_Pipeline : string;
  st_Priority : Z;
  st_Driver : string;
  st_Queue : string;
  st_Ready : bool;
  st_Active : Z;
  st_Reserved : Z;
  st_Delayed : Z
}.

End jobs.

(** ** The transport: what the driver uses of nats.go *)

Module nats.

Record Msg : Type := {
  Data : list Byte.byte;
  Header : gmap string (list string)
}.

Record SequencePair : Type := { Consumer : N; Stream : N }.

Record MsgMetadata : Type := { Sequence : SequencePair }.

Record ConsumerInfo : Type := { NumAckPending : Z; NumWaiting : Z }.

Record StreamConfig : Type := { Name : string; Subjects : list string }.

Record StreamInfo : Type := { Config : StreamConfig }.

(** Handles of live objects. *)
Definition Conn : Type := N.
Definition JetStreamContext : Type := N.
Definition Subscription : Type := N.

Definition DefaultURL : string := "nats://127.0.0.1:4222".

(** Connection options, as [buildNatsOptions] lists them. *)
Inductive Option : Type :=
| OptName (name : string)
| OptToken (token : string)
| OptUserInfo (user password : string)
| OptNoEcho
| OptTimeout (seconds : Z)
| OptMaxReconnects (n : Z)
| OptPingInterval (seconds : Z)
| OptReconnectWait (seconds : Z)
| OptReconnectBufSize (bytes : Z)
| OptReconnectHandler
| OptDisconnectErrHandler.

(** Where a new consumer starts reading. *)
Inductive DeliverPolicy : Type := DeliverAll | DeliverNew | DeliverLast.

End nats.

(** ** Items *)

(** Modelled from the spec: the declaration of [Options] is not among the
    sources.  Section 3 gives it a priority, a pipeline name, a delay and the
    stream sequence; the names are those [unpack] and [requeue] use. *)
Record Options : Type := {
  opt_Priority : Z;
  opt_Pipeline : string;
  opt_Delay : Z;
  opt_seq : N
}.

(** Modelled from the spec: the declaration of [Item] is not among the
    sources.  Section 3 gives it an identity, a job name, a payload, headers
    and options; the names are those [unpack] uses.  [Options] is held by
    pointer ([unpack] stores [&Options{...}]), so it may be nil. *)
Record Item : Type := {
  item_Job : string;
  item_Ident : string;
  item_Payload : string;
  item_Headers : gmap string (list string);
  item_Options : option Options
}.

(** [&Item{}] *)
Definition zero_Item : Item :=
  {| item_Job := EmptyString; item_Ident := EmptyString;
     item_Payload := EmptyString; item_Headers := ∅; item_Options := None |}.

(** ** The driver *)

Record Driver : Type := {
  (* system *)
  listeners : Z;                          (* uint32 *)
  pipeline : jobs.Pipeline;               (* atomic.Pointer, always stored *)
  consumeAll : bool;
  (* nats *)
  conn : nats.Conn;
  sub : option nats.Subscription;
  msgCh : option Z;                       (* capacity of the intake channel *)
  js : nats.JetStreamContext;
  (* config *)
  priority : Z;
  subject : string;
  stream : string;
  prefetch : Z;
  rateLimit : Z;                          (* uint64 *)
  deleteAfterAck : bool;
  deliverNew : bool;
  deliverLast : bool;
  deleteStreamOnStop : bool;
  durable : string
}.

Definition set_listeners (n : Z) (c : Driver) : Driver :=
  {| listeners := n; pipeline := pipeline c; consumeAll := consumeAll c;
     conn := conn c; sub := sub c; msgCh := msgCh c; js := js c;
     priority := priority c; subject := subject c; stream := stream c;
     prefetch := prefetch c; rateLimit := rateLimit c;
     deleteAfterAck := deleteAfterAck c; deliverNew := deliverNew c;
     deliverLast := deliverLast c; deleteStreamOnStop := deleteStreamOnStop c;
     durable := durable c |}.

Definition set_sub (s : option nats.Subscription) (c : Driver) : Driver :=
  {| listeners := listeners c; pipeline := pipeline c; consumeAll := consumeAll c;
     conn := conn c; sub := s; msgCh := msgCh c; js := js c;
     priority := priority c; subject := subject c; stream := stream c;
     prefetch := prefetch c; rateLimit := rateLimit c;
     deleteAfterAck := deleteAfterAck c; deliverNew := deliverNew c;
     deliverLast := deliverLast c; deleteStreamOnStop := deleteStreamOnStop c;
     durable := durable c |}.

(** ** Calls to the collaborators *)

Inductive Level : Type := DebugLevel | InfoLevel | WarnLevel | ErrorLevel.

(** One entry of the trace per call that leaves the driver. *)
Inductive Event : Type :=
| EvLog (lvl : Level) (msg : string)
| EvUUID
| EvMarshal
| EvPublish (js : nats.JetStreamContext) (subject : string) (data : list Byte.byte)
| EvDeleteMsg (js : nats.JetStreamContext) (stream : string) (seq : N)
| EvSubscribe (js : nats.JetStreamContext) (subject durable : string)
              (policy : nats.DeliverPolicy)
| EvWorkerStart
| EvDrain (s : nats.Subscription)
| EvStopSignal
| EvConsumerInfo (s : nats.Subscription)
| EvConnect (addr : string) (opts : list nats.Option)
| EvJetStream (conn : nats.Conn)
| EvStreamInfo (js : nats.JetStreamContext) (name : string)
| EvAddStream (js : nats.JetStreamContext) (cfg : nats.StreamConfig).

(** The answers of the collaborators.  The first argument of an answer that
    can change over time is the trace up to the call. *)
Record Env : Type := {
  json_Marshal_Item : Item -> result (list Byte.byte);
  json_Unmarshal : list Byte.byte -> Item -> result Item;
  uuid_NewString : list Event -> string;
  js_Publish : list Event -> nats.JetStreamContext -> string -> list Byte.byte -> option error;
  js_DeleteMsg : list Event -> nats.JetStreamContext -> string -> N -> option error;
  js_Subscribe : list Event -> nats.JetStreamContext -> string -> string ->
                 nats.DeliverPolicy -> result nats.Subscription;
  sub_Drain : list Event -> nats.Subscription -> option error;
  sub_ConsumerInfo : list Event -> nats.Subscription -> result (option nats.ConsumerInfo);
  nats_Connect : list Event -> string -> list nats.Option -> result nats.Conn;
  conn_JetStream : list Event -> nats.Conn -> result nats.JetStreamContext;
  js_StreamInfo : list Event -> nats.JetStreamContext -> string ->
                  result (option nats.StreamInfo);
  js_AddStream : list Event -> nats.JetStreamContext -> nats.StreamConfig ->
                 result (option nats.StreamInfo)
}.

(** ** The monad of driver methods *)

Inductive outcome (A : Type) : Type :=
| Returned (a : A)
| Panicked (why : string)
| Blocked (on : string).
Arguments Returned {A} a.
Arguments Panicked {A} why.
Arguments Blocked {A} on.

Record World (D : Type) : Type := mkWorld { self : D; trace : list Event }.
Arguments mkWorld {D} self trace.
Arguments self {D} w.
Arguments trace {D} w.

Definition M (D A : Type) : Type := World D -> outcome A * World D.

Definition ret {D A} (a : A) : M D A := fun w => (Returned a, w).

Definition bind {D A B} (m : M D A) (k : A -> M D B) : M D B :=
  fun w =>
    match m w with
    | (Returned a, w') => k a w'
    | (Panicked why, w') => (Panicked why, w')
    | (Blocked on, w') => (Blocked on, w')
    end.

Declare Scope go_scope.
Delimit Scope go_scope with go.
Notation "x <- c ;; k" := (bind c (fun x => k))
  (at level 100, c at next level, right associativity) : go_scope.
Notation "c ;;; k" := (bind c (fun _ => k))
  (at level 100, right associativity) : go_scope.
Local Open Scope go_scope.

Definition panic {D A} (why : string) : M D A := fun w => (Panicked why, w).

Definition get_self {D} : M D D := fun w => (Returned (self w), w).

Definition modify_self {D} (f : D -> D) : M D unit :=
  fun w => (Returned tt, mkWorld (f (self w)) (trace w)).

(** A call whose answer the caller uses: the answer is read off the trace so
    far, then the call is recorded. *)
Definition call {D A} (answer : list Event -> A) (ev : Event) : M D A :=
  fun w => (Returned (answer (trace w)), mkWorld (self w) (trace w ++ [ev])).

(** A call for its effect only. *)
Definition emit {D} (ev : Event) : M D unit := call (fun _ => tt) ev.

Definition log {D} (lvl : Level) (msg : string) : M D unit := emit (EvLog lvl msg).

(** ** config.go *)

Definition pipeSubject : string := "subject".
Definition pipeStream : string := "stream".
Definition pipePrefetch : string := "prefetch".
Definition pipeDeleteAfterAck : string := "delete_after_ack".
Definition pipeDeliverNew : string := "deliver_new".
Definition pipeDeliverLast : string := "deliver_last".
Definition pipeRateLimit : string := "rate_limit".
Definition pipeDeleteStreamOnStop : string := "delete_stream_on_stop".
Definition pipeConsumeAll : string := "consume_all".
Definition pipeDurable : string := "durable".

Record config : Type := {
  (* global *)
  Addr : string;
  Token : string;
  User : string;
  Password : string;
  Name : string;
  ConsumeAll : bool;
  Priority : Z;                           (* int64 *)
  Subject : string;
  Stream : string;
  Prefetch : Z;                           (* int *)
  RateLimit : Z;                          (* uint64 *)
  DeleteAfterAck : bool;
  DeliverNew : bool;
  DeliverLast : bool;
  DeleteStreamOnStop : bool;
  Durable : string
}.

(** The six tests of [InitDefaults] touch six different fields, so each
    field of the result is its own conditional; the other fields are kept. *)
Definition InitDefaults (c : config) : config :=
  {| Addr := if String.eqb (Addr c) EmptyString then nats.DefaultURL else Addr c;
     Token := Token c;
     User := User c;
     Password := Password c;
     Name := Name c;
     ConsumeAll := ConsumeAll c;
     Priority := if Z.eqb (Priority c) 0 then 10 else Priority c;
     Subject := if String.eqb (Subject c) EmptyString then "default" else Subject c;
     Stream := if String.eqb (Stream c) EmptyString then "default-stream" else Stream c;
     Prefetch := if Z.eqb (Prefetch c) 0 then 10 else Prefetch c;
     RateLimit := if Z.eqb (RateLimit c) 0 then 1000 else RateLimit c;
     DeleteAfterAck := DeleteAfterAck c;
     DeliverNew := DeliverNew c;
     DeliverLast := DeliverLast c;
     DeleteStreamOnStop := DeleteStreamOnStop c;
     Durable := Durable c |}.

(** ** unpack.go, second part: construction *)

Definition pluginName : string := "nats".
Definition reconnectBuffer : Z := 20 * 1024 * 1024.

(** The interface [Configurer].  [UnmarshalKey name out] is called with
    [out = &conf], [conf] a [*config]: the method gets the pointer's current
    target ([None] when nil) and answers with its new target. *)
Record Configurer : Type := {
  UnmarshalKey : string -> option config -> result (option config);
  Has : string -> bool
}.

Definition buildNatsOptions (conf : config) : list nats.Option :=
  [ nats.OptName (Name conf);
    nats.OptToken (Token conf);
    nats.OptUserInfo (User conf) (Password conf);
    nats.OptNoEcho;
    nats.OptTimeout 60;
    nats.OptMaxReconnects (-1);
    nats.OptPingInterval 10;
    nats.OptReconnectWait 1;
    nats.OptReconnectBufSize reconnectBuffer;
    nats.OptReconnectHandler;
    nats.OptDisconnectErrHandler ].

(** The largest size [make(chan *nats.Msg, n)] accepts: the elements are
    pointers of 8 bytes, and the channel with its header of 96 bytes has to
    fit the 2^48 bytes a 64-bit runtime can allocate. *)
Definition max_chan_size : Z := (2 ^ 48 - 96) / 8.

(** [make(chan *nats.Msg, n)] panics on a size that is negative or too
    large. *)
Definition make_chan {D} (n : Z) : M D (option Z) :=
  if Z.ltb n 0 || Z.ltb max_chan_size n then panic "makechan: size out of range"
  else ret (Some n).

Definition no_global_configuration : error :=
  Str "no global nats configuration, global configuration should contain NATS URL".

Definition failed_to_create_a_stream : error := Str "failed to create a stream".

(** The text of the error both [Push] and [requeue] answer a delayed job with. *)
Definition delayed_messages_unsupported : error :=
  Str "nats doesn't support delayed messages, see: https://github.com/nats-io/nats-streaming-server/issues/324".

(** consume all *)
Definition auto : string := "deduced_by_rr".

(** The verb [%d] of [fmt.Sprintf] on an unsigned integer. *)
Definition fmt_d (n : N) : string := NilZero.string_of_uint (N.to_uint n).

Definition ready (r : Z) : bool := Z.ltb 0 r.

Definition uint32_max : Z := 2 ^ 32 - 1.       (* ^uint32(0) *)

(** Workers started minus stop signals taken: the workers that are running. *)
Fixpoint workers (tr : list Event) : Z :=
  match tr with
  | [] => 0
  | EvWorkerStart :: tr => workers tr + 1
  | EvStopSignal :: tr => workers tr - 1
  | _ :: tr => workers tr
  end.

(** Modelled from the spec: the worker [listenerStart] starts is not among
    the sources.  Section 5: it waits on the intake channel and on the stop
    channel together, so it takes a stop signal that is sent to it; section
    4.3: the signal is how [Pause] and [Stop] make the worker stop.  The
    stop channel has no buffer ([make(chan struct{})]), so the send
    [c.stopCh <- struct{}{}] goes through when a worker is running, and
    waits forever when none is. *)
Definition send_stop : M Driver unit :=
  fun w =>
    if Z.ltb 0 (workers (trace w)) then emit EvStopSignal w
    else (Blocked "send on stopCh", w).

(** [atomic.AddUint32(&c.listeners, delta)] *)
Definition atomic_AddUint32_listeners (delta : Z) : M Driver unit :=
  modify_self (fun c => set_listeners ((listeners c + delta) mod 2 ^ 32) c).

Section Driver.

Variable env : Env.

(** *** The unpacker *)

Definition unpack (m : nats.Msg) (meta : nats.MsgMetadata) : M Driver (result Item) :=
  c <- get_self ;;
  let item := zero_Item in
  if consumeAll c then
    uid <- call (uuid_NewString env) EvUUID ;;
    log DebugLevel "get raw payload" ;;;
    ret (Ok {| item_Job := auto;
               item_Ident := fmt_d (nats.Consumer (nats.Sequence meta)) +:+ ":" +:+
                             fmt_d (nats.Stream (nats.Sequence meta));
               item_Payload := string_of_list_byte (nats.Data m);
               item_Headers := nats.Header m;
               item_Options := Some {| opt_Priority := 10; opt_Pipeline := auto;
                                       opt_Delay := 0; opt_seq := 0%N |} |})
  else
    match json_Unmarshal env (nats.Data m) item with
    | Err err => ret (Err err)
    | Ok item' => ret (Ok item')
    end.

(** *** Constructors *)

Definition FromConfig (configKey : string) (cfg : Configurer) (pipe : jobs.Pipeline)
  : M unit (result Driver) :=
  let op := "new_nats_consumer" in
  log InfoLevel "NATS fromConfig..." ;;;
  if negb (Has cfg configKey) then
    ret (Err (E op (Errorf "no configuration by provided key: " configKey)))
  else if negb (Has cfg pluginName) then
    ret (Err (E op no_global_configuration))
  else
    match UnmarshalKey cfg configKey None with
    | Err err => ret (Err (E op err))
    | Ok conf =>
    match UnmarshalKey cfg pluginName conf with
    | Err err => ret (Err (E op err))
    | Ok None => panic "invalid memory address or nil pointer dereference"
    | Ok (Some conf) =>
    let conf := InitDefaults conf in
    r <- call (fun tr => nats_Connect env tr (Addr conf) (buildNatsOptions conf))
              (EvConnect (Addr conf) (buildNatsOptions conf)) ;;
    match r with
    | Err err => ret (Err (E op err))
    | Ok conn =>
    r <- call (fun tr => conn_JetStream env tr conn) (EvJetStream conn) ;;
    match r with
    | Err err => ret (Err (E op err))
    | Ok js =>
    r <- call (fun tr => js_StreamInfo env tr js (Stream conf))
              (EvStreamInfo js (Stream conf)) ;;
    r <- match r with
         | Err ErrStreamNotFound =>
             let sc := {| nats.Name := Stream conf; nats.Subjects := [Subject conf] |} in
             r <- call (fun tr => js_AddStream env tr js sc) (EvAddStream js sc) ;;
             match r with
             | Err err => ret (Err (E op err))
             | Ok si => ret (Ok si)
             end
         | Err err => ret (Err (E op err))
         | Ok si => ret (Ok si)
         end ;;
    match r with
    | Err err => ret (Err err)
    | Ok None => ret (Err (E op failed_to_create_a_stream))
    | Ok (Some _) =>
    ch <- make_chan (Prefetch conf) ;;
    ret (Ok {| listeners := 0; pipeline := pipe; consumeAll := ConsumeAll conf;
               conn := conn; sub := None; msgCh := ch; js := js;
               priority := Priority conf; subject := Subject conf;
               stream := Stream conf; prefetch := Prefetch conf;
               rateLimit := RateLimit conf;
               deleteAfterAck := DeleteAfterAck conf;
               deliverNew := DeliverNew conf; deliverLast := DeliverLast conf;
               deleteStreamOnStop := DeleteStreamOnStop conf;
               durable := Durable conf |})
    end end end end end.

Definition FromPipeline (pipe : jobs.Pipeline) (cfg : Configurer)
  : M unit (result Driver) :=
  log InfoLevel "NATS from Pipeline..." ;;;
  let op := "new_nats_pipeline_consumer" in
  if negb (Has cfg pluginName) then
    ret (Err (E op no_global_configuration))
  else
    match UnmarshalKey cfg pluginName None with
    | Err err => ret (Err (E op err))
    | Ok None => panic "invalid memory address or nil pointer dereference"
    | Ok (Some conf) =>
    let conf := InitDefaults conf in
    r <- call (fun tr => nats_Connect env tr (Addr conf) (buildNatsOptions conf))
              (EvConnect (Addr conf) (buildNatsOptions conf)) ;;
    match r with
    | Err err => ret (Err (E op err))
    | Ok conn =>
    r <- call (fun tr => conn_JetStream env tr conn) (EvJetStream conn) ;;
    match r with
    | Err err => ret (Err (E op err))
    | Ok js =>
    let name := jobs.String pipe pipeStream "default-stream" in
    r <- call (fun tr => js_StreamInfo env tr js name) (EvStreamInfo js name) ;;
    r <- match r with
         | Err ErrStreamNotFound =>
             let sc := {| nats.Name := jobs.String pipe pipeStream "default-stream";
                          nats.Subjects := [jobs.String pipe pipeSubject "default"] |} in
             r <- call (fun tr => js_AddStream env tr js sc) (EvAddStream js sc) ;;
             match r with
             | Err err => ret (Err (E op err))
             | Ok si => ret (Ok si)
             end
         | Err err => ret (Err (E op err))
         | Ok si => ret (Ok si)
         end ;;
    match r with
    | Err err => ret (Err err)
    | Ok None => ret (Err (E op failed_to_create_a_stream))
    | Ok (Some _) =>
    ch <- make_chan (jobs.Int pipe pipePrefetch 100) ;;
    ret (Ok {| listeners := 0; pipeline := pipe;
               consumeAll := jobs.Bool pipe pipeConsumeAll false;
               conn := conn; sub := None; msgCh := ch; js := js;
               priority := jobs.Priority pipe;
               subject := jobs.String pipe pipeSubject "default";
               stream := jobs.String pipe pipeStream "default-stream";
               prefetch := jobs.Int pipe pipePrefetch 100;
               rateLimit := jobs.Int pipe pipeRateLimit 1000 mod 2 ^ 64;
               deleteAfterAck := jobs.Bool pipe pipeDeleteAfterAck false;
               deliverNew := jobs.Bool pipe pipeDeliverNew false;
               deliverLast := jobs.Bool pipe pipeDeliverLast false;
               deleteStreamOnStop := jobs.Bool pipe pipeDeleteStreamOnStop false;
               durable := jobs.String pipe pipeDurable EmptyString |})
    end end end end.

(** *** Production *)

Definition Push {J : Type} `{Job J} (job : J) : M Driver (option error) :=
  let op := "nats_consumer_push" in
  c <- get_self ;;
  if Z.ltb 0 (Delay job) then
    ret (Some (E op delayed_messages_unsupported))
  else
    r <- call (fun _ => MarshalJSON job) EvMarshal ;;
    match r with
    | Err err => ret (Some (E op err))
    | Ok data =>
    r <- call (fun tr => js_Publish env tr (js c) (subject c) data)
              (EvPublish (js c) (subject c) data) ;;
    match r with
    | Some err => ret (Some (E op err))
    | None => ret None
    end end.

(** *** The listener *)

(** Modelled from the spec: the delivery policy [listenerInit] asks for; its
    file is not among the sources.  Section 4.3: the policy is "new" or
    "last" per the configuration flags and "all" when neither is set. *)
Definition deliver_policy (c : Driver) : nats.DeliverPolicy :=
  if deliverNew c then nats.DeliverNew
  else if deliverLast c then nats.DeliverLast
  else nats.DeliverAll.

(** Modelled from the spec: [listenerInit] is called by [Run] and [Resume]
    and defined in a file that is not among the sources.  Section 4.3:
    initialize the subscription/consumer, durable or ephemeral per config.
    The attempt touches the subscription handle only: on success the handle
    is the new subscription; on failure the error is returned and the handle
    stays as it was. *)
Definition listenerInit : M Driver (option error) :=
  c <- get_self ;;
  r <- call (fun tr => js_Subscribe env tr (js c) (subject c) (durable c) (deliver_policy c))
            (EvSubscribe (js c) (subject c) (durable c) (deliver_policy c)) ;;
  match r with
  | Err err => ret (Some err)
  | Ok s => modify_self (set_sub (Some s)) ;;; ret None
  end.

(** Modelled from the spec: [listenerStart] is defined with [listenerInit].
    Section 4.3: start the worker goroutine. *)
Definition listenerStart : M Driver unit := emit EvWorkerStart.

(** *** Life cycle *)

Definition Run (p : jobs.Pipeline) : M Driver (option error) :=
  let op := "nats_run" in
  c <- get_self ;;
  let pipe := pipeline c in
  if negb (String.eqb (jobs.Name pipe) (jobs.Name p)) then
    ret (Some (E op (Errorf "no such pipeline registered: " (jobs.Name pipe))))
  else
    let l := listeners c in
    (* listener already active *)
    if Z.eqb l 1 then
      log WarnLevel "nats listener is already in the active state" ;;;
      ret None
    else
      atomic_AddUint32_listeners 1 ;;;
      err <- listenerInit ;;
      match err with
      | Some err => ret (Some (E op err))
      | None =>
          listenerStart ;;;
          log DebugLevel "pipeline was started" ;;;
          ret None
      end.

Definition Pause (p : string) : M Driver (option error) :=
  c <- get_self ;;
  let pipe := pipeline c in
  if negb (String.eqb (jobs.Name pipe) p) then
    ret (Some (Errorf "no such pipeline: " (jobs.Name pipe)))
  else
    let l := listeners c in
    (* no active listeners *)
    if Z.eqb l 0 then
      ret (Some (Str "no active listeners, nothing to pause"))
    else
      (* remove listener *)
      atomic_AddUint32_listeners uint32_max ;;;
      match sub c with
      | Some s =>
          err <- call (fun tr => sub_Drain env tr s) (EvDrain s) ;;
          match err with
          | Some _ => log ErrorLevel "drain error"
          | None => ret tt
          end
      | None => ret tt
      end ;;;
      send_stop ;;;
      modify_self (set_sub None) ;;;
      log DebugLevel "pipeline was paused" ;;;
      ret None.

Definition Resume (p : string) : M Driver (option error) :=
  c <- get_self ;;
  let pipe := pipeline c in
  if negb (String.eqb (jobs.Name pipe) p) then
    ret (Some (Errorf "no such pipeline: " (jobs.Name pipe)))
  else
    let l := listeners c in
    (* listener already active *)
    if Z.eqb l 1 then
      ret (Some (Str "nats listener is already in the active state"))
    else
      err <- listenerInit ;;
      match err with
      | Some err => ret (Some err)
      | None =>
          listenerStart ;;;
          atomic_AddUint32_listeners 1 ;;;
          log DebugLevel "pipeline was resumed" ;;;
          ret None
      end.

Definition State : M Driver (result jobs.State) :=
  c <- get_self ;;
  let pipe := pipeline c in
  let st (active reserved : Z) :=
    {| jobs.st_Pipeline := jobs.Name pipe;
       jobs.st_Priority := jobs.Priority pipe mod 2 ^ 64;
       jobs.st_Driver := jobs.Driver pipe;
       jobs.st_Queue := subject c;
       jobs.st_Ready := ready (listeners c);
       jobs.st_Active := active;
       jobs.st_Reserved := reserved;
       jobs.st_Delayed := 0 |} in
  match sub c with
  | Some s =>
      r <- call (fun tr => sub_ConsumerInfo env tr s) (EvConsumerInfo s) ;;
      match r with
      | Err err => ret (Err err)
      | Ok (Some ci) => ret (Ok (st (nats.NumAckPending ci) (nats.NumWaiting ci)))
      | Ok None => ret (Ok (st 0 0))
      end
  | None => ret (Ok (st 0 0))
  end.

(** *** private *)

Definition requeue (item : Item) : M Driver (option error) :=
  let op := "nats_requeue" in
  c <- get_self ;;
  match item_Options item with
  | None => panic "invalid memory address or nil pointer dereference"
  | Some options =>
  if Z.ltb 0 (opt_Delay options) then
    ret (Some (E op delayed_messages_unsupported))
  else
    r <- call (fun _ => json_Marshal_Item env item) EvMarshal ;;
    match r with
    | Err err => ret (Some (E op err))
    | Ok data =>
    r <- call (fun tr => js_Publish env tr (js c) (subject c) data)
              (EvPublish (js c) (subject c) data) ;;
    match r with
    | Some err => ret (Some (E op err))
    | None =>
        (* delete the old message *)
        _ <- call (fun tr => js_DeleteMsg env tr (js c) (stream c) (opt_seq options))
                  (EvDeleteMsg (js c) (stream c) (opt_seq options)) ;;
        ret None
    end end end.

End Driver.

(** ** The JSON decoder behind [json.Unmarshal]

    [unpack] hands the message body to [json.Unmarshal] (go-json, which
    follows encoding/json).  The theorems below hold for every decoder (it is
    a field of [Env]); this section gives the decoder itself, to run [unpack]
    on concrete bodies: the grammar of RFC 8259 and Go's rules for decoding
    into a struct (keys are matched without regard to case, unknown keys are
    skipped, [null] leaves a value alone and clears a pointer, a number must
    fit its integer field).  The keys of the fields are struct tags, declared
    with [Item]; they are a parameter. *)
Module json.

#[local] Set Warnings "-register-all".
Inductive value : Type :=
| JNull
| JBool (b : bool)
| JNumber (literal : string)
| JString (s : string)
| JArray (elements : list value)
| JObject (members : list (string * value)).

Definition quote : ascii := "034"%char.
Definition backslash : ascii := "092"%char.

Definition is_space (c : ascii) : bool :=
  match c with
  | " "%char | "009"%char | "010"%char | "013"%char => true
  | _ => false
  end.

Fixpoint skip_space (s : string) : string :=
  match s with
  | String c r => if is_space c then skip_space r else s
  | EmptyString => s
  end.

Definition is_digit (c : ascii) : bool :=
  (48 <=? nat_of_ascii c)%nat && (nat_of_ascii c <=? 57)%nat.

(** The longest run of digits at the head of [s], and what follows it. *)
Fixpoint digits (s : string) : string * string :=
  match s with
  | String c r =>
      if is_digit c then let (ds, r') := digits r in (String c ds, r') else (EmptyString, s)
  | EmptyString => (EmptyString, s)
  end.

(** [s] without its prefix [lit]. *)
Fixpoint expect (lit s : string) : option string :=
  match lit, s with
  | EmptyString, _ => Some s
  | String a lit', String b s' => if Ascii.eqb a b then expect lit' s' else None
  | String _ _, EmptyString => None
  end.

(** number = [-] int [frac] [exp] *)
Definition number (s : string) : option (string * string) :=
  let (sign, s) := match s with
                   | String "-"%char r => ("-", r)
                   | _ => (EmptyString, s)
                   end in
  let int_part := match s with
                  | String "0"%char r => Some ("0", r)
                  | String c _ => if is_digit c then Some (digits s) else None
                  | EmptyString => None
                  end in
  match int_part with
  | None => None
  | Some (i, s) =>
  let frac_part := match s with
                   | String "."%char r =>
                       match digits r with
                       | (EmptyString, _) => None
                       | (ds, r') => Some (String "."%char ds, r')
                       end
                   | _ => Some (EmptyString, s)
                   end in
  match frac_part with
  | None => None
  | Some (f, s) =>
  let exp_part := match s with
                  | String e r =>
                      if Ascii.eqb e "e"%char || Ascii.eqb e "E"%char then
                        let (sg, r) := match r with
                                       | String "+"%char r' => ("+", r')
                                       | String "-"%char r' => ("-", r')
                                       | _ => (EmptyString, r)
                                       end in
                        match digits r with
                        | (EmptyString, _) => None
                        | (ds, r') => Some (String e (sg +:+ ds), r')
                        end
                      else Some (EmptyString, s)
                  | EmptyString => Some (EmptyString, s)
                  end in
  match exp_part with
  | None => None
  | Some (e, s) => Some (sign +:+ i +:+ f +:+ e, s)
  end end end.

Definition hex_digit (c : ascii) : option N :=
  let n := N_of_ascii c in
  if (48 <=? n)%N && (n <=? 57)%N then Some (n - 48)%N
  else if (65 <=? n)%N && (n <=? 70)%N then Some (n - 55)%N
  else if (97 <=? n)%N && (n <=? 102)%N then Some (n - 87)%N
  else None.

(** The four hex digits of a [\u] escape. *)
Definition hex4 (s : string) : option (N * string) :=
  match s with
  | String a (String b (String c (String d r))) =>
      match hex_digit a, hex_digit b, hex_digit c, hex_digit d with
      | Some a, Some b, Some c, Some d => Some (a * 4096 + b * 256 + c * 16 + d, r)%N
      | _, _, _, _ => None
      end
  | _ => None
  end.

Definition utf8 (cp : N) : string :=
  let b (n : N) := String (ascii_of_N n) EmptyString in
  if (cp <? 128)%N then b cp
  else if (cp <? 2048)%N then b (192 + cp / 64)%N +:+ b (128 + cp mod 64)%N
  else if (cp <? 65536)%N then
    b (224 + cp / 4096)%N +:+ b (128 + (cp / 64) mod 64)%N +:+ b (128 + cp mod 64)%N
  else
    b (240 + cp / 262144)%N +:+ b (128 + (cp / 4096) mod 64)%N +:+
    b (128 + (cp / 64) mod 64)%N +:+ b (128 + cp mod 64)%N.

Definition replacement_char : N := 65533.

(** The code point of a [\u] escape whose digits gave [hi]: a surrogate
    pair is joined, a lone surrogate becomes U+FFFD. *)
Definition unicode_escape (hi : N) (s : string) : N * string :=
  if (hi <? 55296)%N || (57344 <=? hi)%N then (hi, s)
  else if (hi <? 56320)%N then
    match s with
    | String b (String u r) =>
        if Ascii.eqb b backslash && Ascii.eqb u "u"%char then
          match hex4 r with
          | Some (lo, r') =>
              if (56320 <=? lo)%N && (lo <? 57344)%N
              then (65536 + (hi - 55296) * 1024 + (lo - 56320), r')%N
              else (replacement_char, s)
          | None => (replacement_char, s)
          end
        else (replacement_char, s)
    | _ => (replacement_char, s)
    end
  else (replacement_char, s).

(** The text of a string, read from behind its opening quote. *)
Fixpoint string_body (fuel : nat) (s : string) : option (string * string) :=
  match fuel with
  | O => None
  | S fuel =>
      match s with
      | EmptyString => None
      | String c r =>
          if Ascii.eqb c quote then Some (EmptyString, r)
          else if Ascii.eqb c backslash then
            match r with
            | EmptyString => None
            | String e r =>
                let plain (x : ascii) :=
                  match string_body fuel r with
                  | Some (t, r') => Some (String x t, r')
                  | None => None
                  end in
                if Ascii.eqb e quote then plain quote
                else if Ascii.eqb e backslash then plain backslash
                else
                  match e with
                  | "/"%char => plain "/"%char
                  | "b"%char => plain "008"%char
                  | "f"%char => plain "012"%char
                  | "n"%char => plain "010"%char
                  | "r"%char => plain "013"%char
                  | "t"%char => plain "009"%char
                  | "u"%char =>
                      match hex4 r with
                      | Some (hi, r) =>
                          let (cp, r) := unicode_escape hi r in
                          match string_body fuel r with
                          | Some (t, r') => Some (utf8 cp +:+ t, r')
                          | None => None
                          end
                      | None => None
                      end
                  | _ => None
                  end
            end
          else if (nat_of_ascii c <? 32)%nat then None
          else
            match string_body fuel r with
            | Some (t, r') => Some (String c t, r')
            | None => None
            end
      end
  end.

(** [parse_value] reads one value at the head of [s]; [parse_elements] and
    [parse_members] read from the first element or member up to and over
    the closing bracket. *)
Fixpoint parse_value (fuel : nat) (s : string) : option (value * string) :=
  match fuel with
  | O => None
  | S fuel =>
      match s with
      | String "n"%char _ => match expect "null" s with
                             | Some r => Some (JNull, r) | None => None
                             end
      | String "t"%char _ => match expect "true" s with
                             | Some r => Some (JBool true, r) | None => None
                             end
      | String "f"%char _ => match expect "false" s with
                             | Some r => Some (JBool false, r) | None => None
                             end
      | String "["%char r =>
          match skip_space r with
          | String "]"%char r' => Some (JArray [], r')
          | r' => match parse_elements fuel r' with
                  | Some (vs, r'') => Some (JArray vs, r'') | None => None
                  end
          end
      | String "{"%char r =>
          match skip_space r with
          | String "}"%char r' => Some (JObject [], r')
          | r' => match parse_members fuel r' with
                  | Some (ms, r'') => Some (JObject ms, r'') | None => None
                  end
          end
      | String c r =>
          if Ascii.eqb c quote then
            match string_body (String.length r) r with
            | Some (t, r') => Some (JString t, r') | None => None
            end
          else
            match number s with
            | Some (lit, r') => Some (JNumber lit, r') | None => None
            end
      | EmptyString => None
      end
  end
with parse_elements (fuel : nat) (s : string) : option (list value * string) :=
  match fuel with
  | O => None
  | S fuel =>
      match parse_value fuel s with
      | None => None
      | Some (v, r) =>
          match skip_space r with
          | String ","%char r' =>
              match parse_elements fuel (skip_space r') with
              | Some (vs, r'') => Some (v :: vs, r'') | None => None
              end
          | String "]"%char r' => Some ([v], r')
          | _ => None
          end
      end
  end
with parse_members (fuel : nat) (s : string) : option (list (string * value) * string) :=
  match fuel with
  | O => None
  | S fuel =>
      match s with
      | String c r =>
          if Ascii.eqb c quote then
            match string_body (String.length r) r with
            | None => None
            | Some (k, r) =>
                match skip_space r with
                | String ":"%char r =>
                    match parse_value fuel (skip_space r) with
                    | None => None
                    | Some (v, r) =>
                        match skip_space r with
                        | String ","%char r' =>
                            match parse_members fuel (skip_space r') with
                            | Some (ms, r'') => Some ((k, v) :: ms, r'') | None => None
                            end
                        | String "}"%char r' => Some ([(k, v)], r')
                        | _ => None
                        end
                    end
                | _ => None
                end
            end
          else None
      | EmptyString => None
      end
  end.

(** A whole document: one value between optional white space. *)
Definition parse (s : string) : option value :=
  match parse_value (2 * String.length s + 2) (skip_space s) with
  | Some (v, r) => match skip_space r with
                   | EmptyString => Some v
                   | String _ _ => None
                   end
  | None => None
  end.

(** *** Decoding into [Item] *)

Record ItemKeys : Type := {
  key_Job : string;
  key_Ident : string;
  key_Payload : string;
  key_Headers : string;
  key_Options : string;
  key_Priority : string;
  key_Pipeline : string;
  key_Delay : string
}.

Definition fold_ascii (c : ascii) : ascii :=
  let n := nat_of_ascii c in
  if (65 <=? n)%nat && (n <=? 90)%nat then ascii_of_nat (n + 32) else c.

Fixpoint fold_case (s : string) : string :=
  match s with
  | String c r => String (fold_ascii c) (fold_case r)
  | EmptyString => EmptyString
  end.

Definition key_is (tag key : string) : bool :=
  String.eqb (fold_case tag) (fold_case key).

Fixpoint digits_value (acc : Z) (s : string) : option Z :=
  match s with
  | EmptyString => Some acc
  | String c r =>
      if is_digit c then digits_value (10 * acc + Z.of_nat (nat_of_ascii c) - 48) r
      else None
  end.

(** A number literal as an [int64]: digits only, and in range. *)
Definition int64_of_literal (lit : string) : option Z :=
  let (neg, ds) := match lit with
                   | String "-"%char r => (true, r)
                   | _ => (false, lit)
                   end in
  match ds with
  | EmptyString => None
  | String _ _ =>
      match digits_value 0 ds with
      | Some n =>
          let z := if neg then - n else n in
          if Z.leb (- 2 ^ 63) z && Z.ltb z (2 ^ 63) then Some z else None
      | None => None
      end
  end.

Definition syntax_error : error := Foreign "json: syntax error".
Definition type_error : error := Foreign "json: cannot unmarshal value into Go struct field".

Definition decode_string (v : value) (old : string) : result string :=
  match v with
  | JString s => Ok s
  | JNull => Ok old
  | _ => Err type_error
  end.

Definition decode_int64 (v : value) (old : Z) : result Z :=
  match v with
  | JNumber lit => match int64_of_literal lit with
                   | Some z => Ok z
                   | None => Err type_error
                   end
  | JNull => Ok old
  | _ => Err type_error
  end.

Fixpoint decode_strings (vs : list value) : result (list string) :=
  match vs with
  | [] => Ok []
  | v :: vs =>
      match decode_string v EmptyString, decode_strings vs with
      | Ok s, Ok ss => Ok (s :: ss)
      | Err e, _ => Err e
      | _, Err e => Err e
      end
  end.

Fixpoint decode_header_members (ms : list (string * value))
         (old : gmap string (list string)) : result (gmap string (list string)) :=
  match ms with
  | [] => Ok old
  | (k, v) :: ms =>
      match v with
      | JArray vs => match decode_strings vs with
                     | Ok ss => decode_header_members ms (<[k := ss]> old)
                     | Err e => Err e
                     end
      | JNull => decode_header_members ms (<[k := []]> old)
      | _ => Err type_error
      end
  end.

Definition decode_headers (v : value) (old : gmap string (list string))
  : result (gmap string (list string)) :=
  match v with
  | JObject ms => decode_header_members ms old
  | JNull => Ok ∅
  | _ => Err type_error
  end.

Section Keys.

Variable keys : ItemKeys.

Definition zero_Options : Options :=
  {| opt_Priority := 0; opt_Pipeline := EmptyString; opt_Delay := 0; opt_seq := 0%N |}.

Fixpoint decode_options_members (ms : list (string * value)) (o : Options)
  : result Options :=
  match ms with
  | [] => Ok o
  | (k, v) :: ms =>
      if key_is (key_Priority keys) k then
        match decode_int64 v (opt_Priority o) with
        | Ok z => decode_options_members ms
                    {| opt_Priority := z; opt_Pipeline := opt_Pipeline o;
                       opt_Delay := opt_Delay o; opt_seq := opt_seq o |}
        | Err e => Err e
        end
      else if key_is (key_Pipeline keys) k then
        match decode_string v (opt_Pipeline o) with
        | Ok s => decode_options_members ms
                    {| opt_Priority := opt_Priority o; opt_Pipeline := s;
                       opt_Delay := opt_Delay o; opt_seq := opt_seq o |}
        | Err e => Err e
        end
      else if key_is (key_Delay keys) k then
        match decode_int64 v (opt_Delay o) with
        | Ok z => decode_options_members ms
                    {| opt_Priority := opt_Priority o; opt_Pipeline := opt_Pipeline o;
                       opt_Delay := z; opt_seq := opt_seq o |}
        | Err e => Err e
        end
      else decode_options_members ms o
  end.

(** A pointer field: [null] clears it, an object fills the struct it
    points to, allocated first when the pointer is nil. *)
Definition decode_options (v : value) (old : option Options) : result (option Options) :=
  match v with
  | JObject ms =>
      match decode_options_members ms (default zero_Options old) with
      | Ok o => Ok (Some o)
      | Err e => Err e
      end
  | JNull => Ok None
  | _ => Err type_error
  end.

Fixpoint decode_item_members (ms : list (string * value)) (it : Item) : result Item :=
  match ms with
  | [] => Ok it
  | (k, v) :: ms =>
      if key_is (key_Job keys) k then
        match decode_string v (item_Job it) with
        | Ok s => decode_item_members ms
                    {| item_Job := s; item_Ident := item_Ident it;
                       item_Payload := item_Payload it; item_Headers := item_Headers it;
                       item_Options := item_Options it |}
        | Err e => Err e
        end
      else if key_is (key_Ident keys) k then
        match decode_string v (item_Ident it) with
        | Ok s => decode_item_members ms
                    {| item_Job := item_Job it; item_Ident := s;
                       item_Payload := item_Payload it; item_Headers := item_Headers it;
                       item_Options := item_Options it |}
        | Err e => Err e
        end
      else if key_is (key_Payload keys) k then
        match decode_string v (item_Payload it) with
        | Ok s => decode_item_members ms
                    {| item_Job := item_Job it; item_Ident := item_Ident it;
                       item_Payload := s; item_Headers := item_Headers it;
                       item_Options := item_Options it |}
        | Err e => Err e
        end
      else if key_is (key_Headers keys) k then
        match decode_headers v (item_Headers it) with
        | Ok h => decode_item_members ms
                    {| item_Job := item_Job it; item_Ident := item_Ident it;
                       item_Payload := item_Payload it; item_Headers := h;
                       item_Options := item_Options it |}
        | Err e => Err e
        end
      else if key_is (key_Options keys) k then
        match decode_options v (item_Options it) with
        | Ok o => decode_item_members ms
                    {| item_Job := item_Job it; item_Ident := item_Ident it;
                       item_Payload := item_Payload it; item_Headers := item_Headers it;
                       item_Options := o |}
        | Err e => Err e
        end
      else decode_item_members ms it
  end.

(** [json.Unmarshal(data, item)] with [item] a [*Item]. *)
Definition Unmarshal (data : list Byte.byte) (item : Item) : result Item :=
  match parse (string_of_list_byte data) with
  | None => Err syntax_error
  | Some (JObject ms) => decode_item_members ms item
  | Some JNull => Ok item
  | Some _ => Err type_error
  end.

End Keys.

End json.

(** ** The host's side of the interfaces

    The configuration plugin and the pipeline of the host are outside the
    repository.  Claims about precedence need what their methods answer, so
    here is their contract (spec, section 6: [hasSection], [unmarshalSection],
    "named string/bool/int options with defaults"). *)

(** What one configuration section sets: a field is [Some v] when the section
    has a value under the field's key. *)
Record section : Type := {
  s_addr : option string;
  s_token : option string;
  s_user : option string;
  s_password : option string;
  s_name : option string;
  s_consume_all : option bool;
  s_priority : option Z;
  s_subject : option string;
  s_stream : option string;
  s_prefetch : option Z;
  s_rate_limit : option Z;
  s_delete_after_ack : option bool;
  s_deliver_new : option bool;
  s_deliver_last : option bool;
  s_delete_stream_on_stop : option bool;
  s_durable : option string
}.

Definition zero_config : config :=
  {| Addr := EmptyString; Token := EmptyString; User := EmptyString;
     Password := EmptyString; Name := EmptyString; ConsumeAll := false;
     Priority := 0; Subject := EmptyString; Stream := EmptyString; Prefetch := 0;
     RateLimit := 0; DeleteAfterAck := false; DeliverNew := false;
     DeliverLast := false; DeleteStreamOnStop := false; Durable := EmptyString |}.

(** A field of the target is set when it does not hold the zero value of its
    type; a section writes a field that is not set yet. *)
Definition fill_string (current : string) (o : option string) : string :=
  if String.eqb current EmptyString then default current o else current.

Definition fill_int (current : Z) (o : option Z) : Z :=
  if Z.eqb current 0 then default current o else current.

Definition fill_bool (current : bool) (o : option bool) : bool :=
  if current then current else default current o.

(** Modelled from the spec: [unmarshalSection(name, target)] of section 6,
    merging into the same target as sections 3 and 4.1 have it: the fields
    of the section unmarshalled first take precedence, and the section
    unmarshalled last "wins only when not already set".  Unmarshalling a
    section into a struct writes the fields the section has that are not set
    in the struct, and leaves the others as they are; a nil target is
    allocated first. *)
Definition unmarshal_section (s : section) (out : option config) : config :=
  let c := default zero_config out in
  {| Addr := fill_string (Addr c) (s_addr s);
     Token := fill_string (Token c) (s_token s);
     User := fill_string (User c) (s_user s);
     Password := fill_string (Password c) (s_password s);
     Name := fill_string (Name c) (s_name s);
     ConsumeAll := fill_bool (ConsumeAll c) (s_consume_all s);
     Priority := fill_int (Priority c) (s_priority s);
     Subject := fill_string (Subject c) (s_subject s);
     Stream := fill_string (Stream c) (s_stream s);
     Prefetch := fill_int (Prefetch c) (s_prefetch s);
     RateLimit := fill_int (RateLimit c) (s_rate_limit s);
     DeleteAfterAck := fill_bool (DeleteAfterAck c) (s_delete_after_ack s);
     DeliverNew := fill_bool (DeliverNew c) (s_deliver_new s);
     DeliverLast := fill_bool (DeliverLast c) (s_deliver_last s);
     DeleteStreamOnStop := fill_bool (DeleteStreamOnStop c) (s_delete_stream_on_stop s);
     Durable := fill_string (Durable c) (s_durable s) |}.

(** Modelled from the spec: a configuration made of named sections, with
    [hasSection] and [unmarshalSection] of section 6. *)
Definition sections_Configurer (secs : gmap string section) : Configurer :=
  {| Has := fun name => bool_decide (is_Some (secs !! name));
     UnmarshalKey := fun name out =>
       match secs !! name with
       | Some s => Ok (Some (unmarshal_section s out))
       | None => Ok out
       end |}.

Inductive option_value : Type :=
| VString (s : string)
| VInt (z : Z)
| VBool (b : bool).

(** Modelled from the spec: the pipeline of section 6, with its name, driver
    tag, priority and named string/bool/int options with defaults.  An
    accessor answers the option under the key when it is there with the
    right type, and the default it was called with otherwise. *)
Definition options_Pipeline (name driver : string) (prio : Z)
           (opts : gmap string option_value) : jobs.Pipeline :=
  {| jobs.Name := name;
     jobs.Driver := driver;
     jobs.Priority := prio;
     jobs.String := fun k d => match opts !! k with Some (VString s) => s | _ => d end;
     jobs.Int := fun k d => match opts !! k with Some (VInt z) => z | _ => d end;
     jobs.Bool := fun k d => match opts !! k with Some (VBool b) => b | _ => d end |}.

(** ** The generic view of the configuration fields

    The eleven settings a [Driver] keeps, by name, to state once for all of
    them where a constructor takes the value from. *)
Inductive field : Type :=
| FConsumeAll | FPriority | FSubject | FStream | FPrefetch | FRateLimit
| FDeleteAfterAck | FDeliverNew | FDeliverLast | FDeleteStreamOnStop | FDurable.

Definition section_get (f : field) (s : section) : option option_value :=
  match f with
  | FConsumeAll => VBool <$> s_consume_all s
  | FPriority => VInt <$> s_priority s
  | FSubject => VString <$> s_subject s
  | FStream => VString <$> s_stream s
  | FPrefetch => VInt <$> s_prefetch s
  | FRateLimit => VInt <$> s_rate_limit s
  | FDeleteAfterAck => VBool <$> s_delete_after_ack s
  | FDeliverNew => VBool <$> s_deliver_new s
  | FDeliverLast => VBool <$> s_deliver_last s
  | FDeleteStreamOnStop => VBool <$> s_delete_stream_on_stop s
  | FDurable => VString <$> s_durable s
  end.

Definition driver_get (f : field) (d : Driver) : option_value :=
  match f with
  | FConsumeAll => VBool (consumeAll d)
  | FPriority => VInt (priority d)
  | FSubject => VString (subject d)
  | FStream => VString (stream d)
  | FPrefetch => VInt (prefetch d)
  | FRateLimit => VInt (rateLimit d)
  | FDeleteAfterAck => VBool (deleteAfterAck d)
  | FDeliverNew => VBool (deliverNew d)
  | FDeliverLast => VBool (deliverLast d)
  | FDeleteStreamOnStop => VBool (deleteStreamOnStop d)
  | FDurable => VString (durable d)
  end.

(** The zero value of a field's Go type. *)
Definition zero_value (f : field) : option_value :=
  match f with
  | FConsumeAll | FDeleteAfterAck | FDeliverNew | FDeliverLast
  | FDeleteStreamOnStop => VBool false
  | FPriority | FPrefetch | FRateLimit => VInt 0
  | FSubject | FStream | FDurable => VString EmptyString
  end.

Definition is_zero (v : option_value) : bool :=
  match v with
  | VString s => String.eqb s EmptyString
  | VInt z => Z.eqb z 0
  | VBool b => negb b
  end.

(** The hard-coded value [InitDefaults] gives a field left at zero. *)
Definition config_fallback (f : field) : option option_value :=
  match f with
  | FPriority => Some (VInt 10)
  | FSubject => Some (VString "default")
  | FStream => Some (VString "default-stream")
  | FPrefetch => Some (VInt 10)
  | FRateLimit => Some (VInt 1000)
  | _ => None
  end.

Definition with_config_fallback (f : field) (v : option_value) : option_value :=
  match config_fallback f with
  | Some d => if is_zero v then d else v
  | None => v
  end.

(** The value a field has after the key's section [ks] and then the global
    section [gs] were unmarshalled: the key's when the key's section sets
    it, else the global section's, else zero. *)
Definition merged (f : field) (ks gs : section) : option_value :=
  let v := default (zero_value f) (section_get f ks) in
  if is_zero v then default v (section_get f gs) else v.

(** The option key [FromPipeline] reads a field from (the priority has an
    accessor of its own) and the default it passes to the accessor. *)
Definition pipeline_key (f : field) : option string :=
  match f with
  | FConsumeAll => Some pipeConsumeAll
  | FPriority => None
  | FSubject => Some pipeSubject
  | FStream => Some pipeStream
  | FPrefetch => Some pipePrefetch
  | FRateLimit => Some pipeRateLimit
  | FDeleteAfterAck => Some pipeDeleteAfterAck
  | FDeliverNew => Some pipeDeliverNew
  | FDeliverLast => Some pipeDeliverLast
  | FDeleteStreamOnStop => Some pipeDeleteStreamOnStop
  | FDurable => Some pipeDurable
  end.

Definition pipeline_fallback (f : field) : option_value :=
  match f with
  | FSubject => VString "default"
  | FStream => VString "default-stream"
  | FPrefetch => VInt 100
  | FRateLimit => VInt 1000
  | FDurable => VString EmptyString
  | FPriority => VInt 0
  | _ => VBool false
  end.

Definition same_type (a b : option_value) : bool :=
  match a, b with
  | VString _, VString _ | VInt _, VInt _ | VBool _, VBool _ => true
  | _, _ => false
  end.

(** The conversion on the way into the [Driver]: the rate limit is a
    [uint64]. *)
Definition stored (f : field) (v : option_value) : option_value :=
  match f, v with
  | FRateLimit, VInt z => VInt (z mod 2 ^ 64)
  | _, _ => v
  end.

Definition pipeline_get (f : field) (prio : Z) (opts : gmap string option_value)
  : option_value :=
  match pipeline_key f with
  | None => VInt prio
  | Some k =>
      match opts !! k with
      | Some v => if same_type v (pipeline_fallback f) then v else pipeline_fallback f
      | None => pipeline_fallback f
      end
  end.

(** ** Concrete collaborators, drivers and messages *)

Module Fixtures.

Definition item_keys : json.ItemKeys :=
  {| json.key_Job := "job"; json.key_Ident := "id"; json.key_Payload := "payload";
     json.key_Headers := "headers"; json.key_Options := "options";
     json.key_Priority := "priority"; json.key_Pipeline := "pipeline";
     json.key_Delay := "delay" |}.

Definition bytes (s : string) : list Byte.byte := list_byte_of_string s.

Definition stream_info : nats.StreamInfo :=
  {| nats.Config := {| nats.Name := "default-stream"; nats.Subjects := ["default"] |} |}.

(** Collaborators that give the same answer at every call: [publish] and
    [delete] from JetStream, [subscribe] from the subscription attempt,
    [info] from the consumer-info query; everything else succeeds. *)
Definition constant_env (publish delete : option error)
           (subscribe : result nats.Subscription)
           (info : result (option nats.ConsumerInfo)) : Env :=
  {| json_Marshal_Item := fun it => Ok (bytes (item_Job it));
     json_Unmarshal := json.Unmarshal item_keys;
     uuid_NewString := fun _ => "6ba7b810-9dad-11d1-80b4-00c04fd430c8";
     js_Publish := fun _ _ _ _ => publish;
     js_DeleteMsg := fun _ _ _ _ => delete;
     js_Subscribe := fun _ _ _ _ _ => subscribe;
     sub_Drain := fun _ _ => None;
     sub_ConsumerInfo := fun _ _ => info;
     nats_Connect := fun _ _ _ => Ok 1%N;
     conn_JetStream := fun _ _ => Ok 2%N;
     js_StreamInfo := fun _ _ _ => Ok (Some stream_info);
     js_AddStream := fun _ _ _ => Ok (Some stream_info) |}.

Definition consumer_info : nats.ConsumerInfo :=
  {| nats.NumAckPending := 4; nats.NumWaiting := 1 |}.

Definition healthy_env : Env :=
  constant_env None None (Ok 3%N) (Ok (Some consumer_info)).

Definition no_subscription_env : Env :=
  constant_env None None (Err (Foreign "nats: no responders available for request"))
               (Ok (Some consumer_info)).

Definition no_consumer_info_env : Env :=
  constant_env None None (Ok 3%N) (Err (Foreign "nats: consumer not found")).

Definition no_delete_env : Env :=
  constant_env None (Some (Foreign "nats: message not found")) (Ok 3%N)
               (Ok (Some consumer_info)).

Definition emails : jobs.Pipeline := options_Pipeline "emails" "nats" 10 ∅.

Definition idle_driver : Driver :=
  {| listeners := 0; pipeline := emails; consumeAll := false;
     conn := 1%N; sub := None; msgCh := Some 10; js := 2%N;
     priority := 10; subject := "default"; stream := "default-stream";
     prefetch := 10; rateLimit := 1000; deleteAfterAck := false;
     deliverNew := false; deliverLast := false; deleteStreamOnStop := false;
     durable := EmptyString |}.

Definition active_driver : Driver :=
  set_sub (Some 3%N) (set_listeners 1 idle_driver).

Definition raw_driver : Driver :=
  {| listeners := 1; pipeline := emails; consumeAll := true;
     conn := 1%N; sub := Some 3%N; msgCh := Some 10; js := 2%N;
     priority := 10; subject := "default"; stream := "default-stream";
     prefetch := 10; rateLimit := 1000; deleteAfterAck := false;
     deliverNew := false; deliverLast := false; deleteStreamOnStop := false;
     durable := EmptyString |}.

Definition start {D} (d : D) : World D := mkWorld d [].

(** A job as the host hands it to [Push]. *)
Record job : Type := { job_delay : Z; job_body : string }.

#[global] Instance job_Job : Job job :=
  {| Delay := job_delay; MarshalJSON := fun j => Ok (bytes (job_body j)) |}.

Definition item_with_delay (delay : Z) : Item :=
  {| item_Job := "send-email"; item_Ident := "42"; item_Payload := "hello";
     item_Headers := ∅;
     item_Options := Some {| opt_Priority := 10; opt_Pipeline := "emails";
                             opt_Delay := delay; opt_seq := 7%N |} |}.

Definition message (body : string) : nats.Msg :=
  {| nats.Data := bytes body; nats.Header := {[ "trace" := ["a"; "b"] ]} |}.

(** [s] between double quotes. *)
Definition quoted (s : string) : string :=
  String json.quote s +:+ String json.quote EmptyString.

(** The body of a structured message with options. *)
Definition item_body : string :=
  "{" +:+ quoted "job" +:+ ": " +:+ quoted "send-email" +:+ ", " +:+
  quoted "id" +:+ ": " +:+ quoted "42" +:+ ", " +:+
  quoted "options" +:+ ": {" +:+ quoted "priority" +:+ ": 5, " +:+
  quoted "pipeline" +:+ ": " +:+ quoted "emails" +:+ "}}".

Definition metadata (consumer stream : N) : nats.MsgMetadata :=
  {| nats.Sequence := {| nats.Consumer := consumer; nats.Stream := stream |} |}.

Definition key_section : section :=
  {| s_addr := None; s_token := None; s_user := None; s_password := None;
     s_name := None; s_consume_all := None; s_priority := Some 3;
     s_subject := Some "orders"; s_stream := None; s_prefetch := None;
     s_rate_limit := None; s_delete_after_ack := Some true; s_deliver_new := None;
     s_deliver_last := None; s_delete_stream_on_stop := None; s_durable := None |}.

Definition global_section : section :=
  {| s_addr := Some "nats://broker:4222"; s_token := None; s_user := None;
     s_password := None; s_name := None; s_consume_all := None; s_priority := None;
     s_subject := Some "events"; s_stream := Some "events-stream";
     s_prefetch := None;
     s_rate_limit := None; s_delete_after_ack := None; s_deliver_new := None;
     s_deliver_last := None; s_delete_stream_on_stop := None; s_durable := None |}.

Definition sections : gmap string section :=
  {[ "jobs.pipelines.emails.config" := key_section; "nats" := global_section ]}.

Definition emails_options : gmap string option_value :=
  {[ "subject" := VString "orders"; "prefetch" := VInt 5 ]}.

End Fixtures.

(** ** Names for the statements

    The subscription attempt of a driver in the world [w], and its answer. *)
Definition subscribe_event (c : Driver) : Event :=
  EvSubscribe (js c) (subject c) (durable c) (deliver_policy c).

Definition subscribe_answer (env : Env) (w : World Driver) : result nats.Subscription :=
  let c := self w in
  js_Subscribe env (trace w) (js c) (subject c) (durable c) (deliver_policy c).

(** ** unpack.go, the remaining methods *)

Definition set_pipeline (p : jobs.Pipeline) (c : Driver) : Driver :=
  {| listeners := listeners c; pipeline := p; consumeAll := consumeAll c;
     conn := conn c; sub := sub c; msgCh := msgCh c; js := js c;
     priority := priority c; subject := subject c; stream := stream c;
     prefetch := prefetch c; rateLimit := rateLimit c;
     deleteAfterAck := deleteAfterAck c; deliverNew := deliverNew c;
     deliverLast := deliverLast c; deleteStreamOnStop := deleteStreamOnStop c;
     durable := durable c |}.

Definition set_msgCh (ch : option Z) (c : Driver) : Driver :=
  {| listeners := listeners c; pipeline := pipeline c; consumeAll := consumeAll c;
     conn := conn c; sub := sub c; msgCh := ch; js := js c;
     priority := priority c; subject := subject c; stream := stream c;
     prefetch := prefetch c; rateLimit := rateLimit c;
     deleteAfterAck := deleteAfterAck c; deliverNew := deliverNew c;
     deliverLast := deliverLast c; deleteStreamOnStop := deleteStreamOnStop c;
     durable := durable c |}.

Definition Register (p : jobs.Pipeline) : M Driver (option error) :=
  modify_self (set_pipeline p) ;;;
  ret None.

(** The handlers [buildNatsOptions] installs: the connection calls them with
    the URL it lost, and with the error it was disconnected by. *)
Definition reconnectHandler {D} (url : string) : M D unit :=
  log WarnLevel "connection lost, reconnecting".

Definition disconnectHandler {D} (err : option error) : M D unit :=
  match err with
  | Some _ => log ErrorLevel "nats disconnected"
  | None => log WarnLevel "nats disconnected"
  end.

(** *** Stop

    [Stop] calls the stream and the connection, which no other method does.
    Its trace has those calls beside the calls of [Event]; the method is
    written with the driver and the trace passed along.  As in [Pause], the
    stop signal is a send a running worker has to take: [Stop] is [Blocked]
    at it when none is running. *)
Inductive Teardown : Type :=
| TdCall (ev : Event)
| TdDeleteStream (js : nats.JetStreamContext) (stream : string)
| TdConnDrain (conn : nats.Conn)
| TdConnClose (conn : nats.Conn).

Record TeardownEnv : Type := {
  js_DeleteStream : list Teardown -> nats.JetStreamContext -> string -> option error;
  conn_Drain : list Teardown -> nats.Conn -> option error
}.

(** The calls of a teardown trace that are calls of [Event], for the answers
    of [Env]. *)
Fixpoint driver_calls (tr : list Teardown) : list Event :=
  match tr with
  | [] => []
  | TdCall ev :: tr => ev :: driver_calls tr
  | _ :: tr => driver_calls tr
  end.

Definition Stop (env : Env) (tenv : TeardownEnv) (c : Driver) (tr : list Teardown)
  : outcome (option error) * Driver * list Teardown :=
  let ended :=
    if Z.ltb 0 (listeners c) then
      let tr :=
        match sub c with
        | Some s =>
            let err := sub_Drain env (driver_calls tr) s in
            let tr := (tr ++ [TdCall (EvDrain s)])%list in
            match err with
            | Some _ => (tr ++ [TdCall (EvLog ErrorLevel "drain error")])%list
            | None => tr
            end
        | None => tr
        end in
      (* c.stopCh <- struct{}{} *)
      if Z.ltb 0 (workers (driver_calls tr))
      then (true, (tr ++ [TdCall EvStopSignal])%list)
      else (false, tr)
    else (true, tr) in
  match ended with
  | (false, tr) => (Blocked "send on stopCh", c, tr)
  | (true, tr) =>
  let deleted :=
    if deleteStreamOnStop c then
      (js_DeleteStream tenv tr (js c) (stream c),
       (tr ++ [TdDeleteStream (js c) (stream c)])%list)
    else (None, tr) in
  match deleted with
  | (Some err, tr) => (Returned (Some err), c, tr)
  | (None, tr) =>
      let err := conn_Drain tenv tr (conn c) in
      let tr := (tr ++ [TdConnDrain (conn c)])%list in
      match err with
      | Some err => (Returned (Some err), c, tr)
      | None =>
          (Returned None, set_msgCh None c,
           (tr ++ [TdConnClose (conn c);
                   TdCall (EvLog DebugLevel "pipeline was stopped")])%list)
      end
  end end.

(** The calls by which [Stop] drains the subscription of the driver [c],
    after the trace [tr]. *)
Definition drain_calls (env : Env) (c : Driver) (tr : list Teardown)
  : list Teardown :=
  if Z.ltb 0 (listeners c) then
    match sub c with
    | Some s =>
        TdCall (EvDrain s) ::
        match sub_Drain env (driver_calls tr) s with
        | Some _ => [TdCall (EvLog ErrorLevel "drain error")]
        | None => []
        end
    | None => []
    end
  else [].

(** The calls by which [Stop] ends the listener when its stop signal is
    taken: the drain, then the signal. *)
Definition listener_teardown (env : Env) (c : Driver) (tr : list Teardown)
  : list Teardown :=
  (drain_calls env c tr
   ++ if Z.ltb 0 (listeners c) then [TdCall EvStopSignal] else [])%list.

(** A call to the connection itself. *)
Definition is_conn_call (t : Teardown) : bool :=
  match t with
  | TdConnDrain _ | TdConnClose _ => true
  | _ => false
  end.

(** ** plugin.go *)

Module plugin.

Definition pluginName : string := "nats".

Record Plugin : Type := {
  log : string;                       (* the name of the logger it was given *)
  cfg : Configurer
}.

(** [Init] answers [errors.E(errors.Disabled)] or fills the plugin. *)
Inductive init : Type :=
| Enabled (p : Plugin)
| Disabled.

Definition Init (cfg : Configurer) : init :=
  if negb (Has cfg pluginName) then Disabled
  else Enabled {| log := pluginName; cfg := cfg |}.

Definition Name (p : Plugin) : string := pluginName.

Definition DriverFromConfig (env : Env) (p : Plugin) (configKey : string)
           (pipeline : jobs.Pipeline) : M unit (result Driver) :=
  FromConfig env configKey (cfg p) pipeline.

Definition DriverFromPipeline (env : Env) (p : Plugin) (pipe : jobs.Pipeline)
  : M unit (result Driver) :=
  FromPipeline env pipe (cfg p).

End plugin.

(** ** Sequences of calls

    What the host may do with a driver, to state what holds after any
    sequence of calls. *)
Inductive Op : Type :=
| OpRun (p : jobs.Pipeline)
| OpPause (p : string)
| OpResume (p : string)
| OpRegister (p : jobs.Pipeline)
| OpState
| OpPush (J : Type) (JJ : Job J) (job : J)
| OpRequeue (item : Item)
| OpUnpack (m : nats.Msg) (meta : nats.MsgMetadata)
| OpReconnect (url : string)
| OpDisconnect (err : option error).

Definition perform (env : Env) (op : Op) : M Driver unit :=
  match op with
  | OpRun p => Run env p ;;; ret tt
  | OpPause p => Pause env p ;;; ret tt
  | OpResume p => Resume env p ;;; ret tt
  | OpRegister p => Register p ;;; ret tt
  | OpState => State env ;;; ret tt
  | OpPush J JJ job => Push env job ;;; ret tt
  | OpRequeue item => requeue env item ;;; ret tt
  | OpUnpack m meta => unpack env m meta ;;; ret tt
  | OpReconnect url => reconnectHandler url
  | OpDisconnect err => disconnectHandler err
  end.

Fixpoint perform_all (env : Env) (ops : list Op) : M Driver unit :=
  match ops with
  | [] => ret tt
  | op :: ops => perform env op ;;; perform_all env ops
  end.

(** What every call keeps, from an idle driver on: no stop signal was taken
    that no worker was there for, a counter of 0 goes with no subscription
    and no worker, and a counter of 1 with at most one worker, which is
    there when a subscription is held. *)
Definition listener_invariant (w : World Driver) : Prop :=
  0 <= workers (trace w)
  /\ ((listeners (self w) = 0 /\ sub (self w) = None /\ workers (trace w) = 0)
      \/ (listeners (self w) = 1 /\ workers (trace w) <= 1
          /\ (sub (self w) <> None -> workers (trace w) = 1))).

(** A driver that [Run] has just started, with its worker running. *)
Definition started (c : Driver) (s : nats.Subscription) : World Driver :=
  mkWorld (set_sub (Some s) (set_listeners 1 c))
    [EvSubscribe (js c) (subject c) (durable c) (deliver_policy c); EvWorkerStart;
     EvLog DebugLevel "pipeline was started"].

(** The settings a constructor fixes. *)
Definition snapshot (c : Driver)
  : bool * nats.Conn * nats.JetStreamContext * option Z * Z * string * string * Z * Z
    * bool * bool * bool * bool * string :=
  (consumeAll c, conn c, js c, msgCh c, priority c, subject c, stream c, prefetch c,
   rateLimit c, deleteAfterAck c, deliverNew c, deliverLast c, deleteStreamOnStop c,
   durable c).

Definition is_subscribe (ev : Event) : bool :=
  match ev with
  | EvSubscribe _ _ _ _ | EvWorkerStart => true
  | _ => false
  end.

Definition is_connect (ev : Event) : bool :=
  match ev with
  | EvConnect _ _ => true
  | _ => false
  end.

Definition is_add_stream (ev : Event) : bool :=
  match ev with
  | EvAddStream _ _ => true
  | _ => false
  end.

Definition is_publish (ev : Event) : bool :=
  match ev with
  | EvPublish _ _ _ => true
  | _ => false
  end.

(** A driver as a constructor leaves it, having made the calls [calls]: idle,
    bound to [pipe], with an intake channel of the prefetch's size, no
    subscription asked for, and any stream created being the driver's, bound
    to the driver's subject alone. *)
Definition fresh (pipe : jobs.Pipeline) (calls : list Event) (d : Driver) : Prop :=
  listeners d = 0
  /\ sub d = None
  /\ pipeline d = pipe
  /\ msgCh d = Some (prefetch d)
  /\ 0 <= prefetch d
  /\ forallb (fun ev => negb (is_subscribe ev)) calls = true
  /\ forall j sc,
       In (EvAddStream j sc) calls ->
       j = js d /\ sc = {| nats.Name := stream d; nats.Subjects := [subject d] |}.

Module Teardowns.

Definition quiet : TeardownEnv :=
  {| js_DeleteStream := fun _ _ _ => None; conn_Drain := fun _ _ => None |}.

Definition stream_in_use : TeardownEnv :=
  {| js_DeleteStream := fun _ _ _ => Some (Foreign "nats: stream not found");
     conn_Drain := fun _ _ => None |}.

Definition connection_closed : TeardownEnv :=
  {| js_DeleteStream := fun _ _ _ => None;
     conn_Drain := fun _ _ => Some (Foreign "nats: connection closed") |}.

(** An active driver that deletes its stream when stopped. *)
Definition deleting_driver : Driver :=
  {| listeners := 1; pipeline := Fixtures.emails; consumeAll := false;
     conn := 1%N; sub := Some 3%N; msgCh := Some 10; js := 2%N;
     priority := 10; subject := "default"; stream := "default-stream";
     prefetch := 10; rateLimit := 1000; deleteAfterAck := false;
     deliverNew := false; deliverLast := false; deleteStreamOnStop := true;
     durable := EmptyString |}.

Definition reports : jobs.Pipeline := options_Pipeline "reports" "nats" (-1) ∅.

Definition empty_Configurer : Configurer := sections_Configurer ∅.

End Teardowns.

(** * Theorems *)

(** Unfolds the monad, leaving the tests of the method under study. *)
Ltac run_method :=
  unfold bind, ret, log, emit, call, get_self, modify_self, panic,
    atomic_AddUint32_listeners; cbn.

Lemma ltb_positive (z : Z) : 0 < z -> Z.ltb 0 z = true.
Proof. intros Hz. now apply Z.ltb_lt. Qed.

Lemma ltb_not_positive (z : Z) : z <= 0 -> Z.ltb 0 z = false.
Proof. intros Hz. now apply Z.ltb_ge. Qed.

Lemma same_name (a b : string) : a = b -> negb (String.eqb a b) = false.
Proof. intros ->. now rewrite String.eqb_refl. Qed.

(** ** Delayed jobs *)

(** C1.  A job whose delay is positive is refused by [Push], and an item whose
    options carry a positive delay is refused by [requeue]: both answer with
    the same unsupported-feature error under their own operation tag, and the
    world is as before the call, so nothing was serialized, published or
    deleted. *)
Theorem delayed_job_is_refused
  (env : Env) (J : Type) (JJ : Job J) (job : J) (item : Item) (options : Options)
  (w : World Driver) :
  0 < Delay job ->
  item_Options item = Some options ->
  0 < opt_Delay options ->
  Push env job w
    = (Returned (Some (E "nats_consumer_push" delayed_messages_unsupported)), w)
  /\ requeue env item w
    = (Returned (Some (E "nats_requeue" delayed_messages_unsupported)), w).
Proof.
  intros Hjob Hopt Hitem. split.
  - unfold Push. run_method. now rewrite (ltb_positive _ Hjob).
  - unfold requeue. run_method. rewrite Hopt. now rewrite (ltb_positive _ Hitem).
Qed.

Lemma delayed_job_is_refused_example :
  Push Fixtures.healthy_env
       {| Fixtures.job_delay := 30; Fixtures.job_body := "report" |}
       (Fixtures.start Fixtures.active_driver)
    = (Returned (Some (E "nats_consumer_push" delayed_messages_unsupported)),
       Fixtures.start Fixtures.active_driver)
  /\ requeue Fixtures.healthy_env (Fixtures.item_with_delay 30)
             (Fixtures.start Fixtures.active_driver)
    = (Returned (Some (E "nats_requeue" delayed_messages_unsupported)),
       Fixtures.start Fixtures.active_driver).
Proof.
  apply (delayed_job_is_refused Fixtures.healthy_env Fixtures.job Fixtures.job_Job
           {| Fixtures.job_delay := 30; Fixtures.job_body := "report" |}
           (Fixtures.item_with_delay 30)
           {| opt_Priority := 10; opt_Pipeline := "emails"; opt_Delay := 30;
              opt_seq := 7%N |}).
  - simpl. lia.
  - reflexivity.
  - simpl. lia.
Defined.

(** ** Requeue *)

(** What [requeue] does with an item whose delay is not positive, by the
    answers of the marshaller and of the publish call. *)
Lemma requeue_without_delay
  (env : Env) (item : Item) (options : Options) (w : World Driver) :
  item_Options item = Some options ->
  opt_Delay options <= 0 ->
  requeue env item w =
    let c := self w in
    let marshalled := (trace w ++ [EvMarshal])%list in
    match json_Marshal_Item env item with
    | Err err => (Returned (Some (E "nats_requeue" err)), mkWorld c marshalled)
    | Ok data =>
        let published := (marshalled ++ [EvPublish (js c) (subject c) data])%list in
        match js_Publish env marshalled (js c) (subject c) data with
        | Some err => (Returned (Some (E "nats_requeue" err)), mkWorld c published)
        | None =>
            (Returned None,
             mkWorld c (published ++ [EvDeleteMsg (js c) (stream c) (opt_seq options)]))
        end
    end.
Proof.
  intros Hopt Hdelay. unfold requeue. run_method.
  rewrite Hopt, (ltb_not_positive _ Hdelay).
  destruct (json_Marshal_Item env item) as [data|err]; [|reflexivity].
  destruct (js_Publish env _ _ _ data); reflexivity.
Qed.

(** C9.  With delay 0, [requeue] serializes the item and publishes it to the
    driver's subject.  A failure of either step is returned under the
    operation tag, and the trace ends there: no deletion was attempted.
    After a successful publish the original message is deleted by the
    sequence recorded in the options, and [requeue] returns nil whatever the
    deletion answered. *)
Theorem requeue_republishes_then_deletes
  (env : Env) (item : Item) (options : Options) (w : World Driver) :
  item_Options item = Some options ->
  opt_Delay options = 0 ->
  let c := self w in
  let marshalled := (trace w ++ [EvMarshal])%list in
  match json_Marshal_Item env item with
  | Err err =>
      requeue env item w
      = (Returned (Some (E "nats_requeue" err)), mkWorld c marshalled)
  | Ok data =>
      let published := (marshalled ++ [EvPublish (js c) (subject c) data])%list in
      match js_Publish env marshalled (js c) (subject c) data with
      | Some err =>
          requeue env item w
          = (Returned (Some (E "nats_requeue" err)), mkWorld c published)
      | None =>
          requeue env item w
          = (Returned None,
             mkWorld c (published ++ [EvDeleteMsg (js c) (stream c) (opt_seq options)]))
      end
  end.
Proof.
  intros Hopt Hdelay c marshalled.
  rewrite (requeue_without_delay env item options w Hopt) by lia.
  fold c. fold marshalled.
  destruct (json_Marshal_Item env item) as [data|err]; [|reflexivity].
  cbv zeta. destruct (js_Publish env marshalled (js c) (subject c) data); reflexivity.
Qed.

(** A failing deletion is swallowed: the stream refuses to delete, [requeue]
    returns nil. *)
Lemma requeue_republishes_then_deletes_example :
  requeue Fixtures.no_delete_env (Fixtures.item_with_delay 0)
          (Fixtures.start Fixtures.active_driver)
  = (Returned None,
     mkWorld Fixtures.active_driver
       [EvMarshal;
        EvPublish 2%N "default" (Fixtures.bytes "send-email");
        EvDeleteMsg 2%N "default-stream" 7%N]).
Proof.
  exact (requeue_republishes_then_deletes Fixtures.no_delete_env
           (Fixtures.item_with_delay 0)
           {| opt_Priority := 10; opt_Pipeline := "emails"; opt_Delay := 0;
              opt_seq := 7%N |}
           (Fixtures.start Fixtures.active_driver) eq_refl eq_refl).
Defined.

(** ** The unpacker *)

(** [unpack] in raw consume-all mode: the item, and the two calls made. *)
Lemma unpack_consume_all
  (env : Env) (m : nats.Msg) (meta : nats.MsgMetadata) (w : World Driver) :
  consumeAll (self w) = true ->
  unpack env m meta w
  = (Returned
       (Ok {| item_Job := auto;
              item_Ident := fmt_d (nats.Consumer (nats.Sequence meta)) +:+ ":" +:+
                            fmt_d (nats.Stream (nats.Sequence meta));
              item_Payload := string_of_list_byte (nats.Data m);
              item_Headers := nats.Header m;
              item_Options := Some {| opt_Priority := 10; opt_Pipeline := auto;
                                      opt_Delay := 0; opt_seq := 0%N |} |}),
     mkWorld (self w) (trace w ++ [EvUUID; EvLog DebugLevel "get raw payload"])).
Proof.
  intros Hraw. unfold unpack. run_method. rewrite Hraw.
  now rewrite <- app_assoc.
Qed.

(** C7.  In raw consume-all mode [unpack] answers every message, whatever its
    body, with an item whose identity is the consumer sequence and the stream
    sequence in decimal around a colon, whose job name is the sentinel, whose
    payload is the body, whose headers are the message's, and whose options
    have priority 10 and the sentinel as pipeline. *)
Theorem unpack_raw_message
  (env : Env) (m : nats.Msg) (meta : nats.MsgMetadata) (w : World Driver) :
  consumeAll (self w) = true ->
  exists item options,
    fst (unpack env m meta w) = Returned (Ok item)
    /\ item_Ident item
       = fmt_d (nats.Consumer (nats.Sequence meta)) +:+ ":" +:+
         fmt_d (nats.Stream (nats.Sequence meta))
    /\ item_Job item = auto
    /\ item_Payload item = string_of_list_byte (nats.Data m)
    /\ item_Headers item = nats.Header m
    /\ item_Options item = Some options
    /\ opt_Priority options = 10
    /\ opt_Pipeline options = auto.
Proof.
  intros Hraw. rewrite (unpack_consume_all env m meta w Hraw). cbn.
  do 2 eexists. repeat split; reflexivity.
Qed.

(** Consumer sequence 3 and stream sequence 7 give the identity 3:7, here on
    a body that is not an item at all. *)
Lemma unpack_raw_message_example :
  exists item options,
    fst (unpack Fixtures.healthy_env (Fixtures.message "not { json")
                (Fixtures.metadata 3 7) (Fixtures.start Fixtures.raw_driver))
    = Returned (Ok item)
    /\ item_Ident item = "3:7"
    /\ item_Job item = "deduced_by_rr"
    /\ item_Payload item = "not { json"
    /\ item_Headers item = {[ "trace" := ["a"; "b"] ]}
    /\ item_Options item = Some options
    /\ opt_Priority options = 10
    /\ opt_Pipeline options = "deduced_by_rr".
Proof.
  exact (unpack_raw_message Fixtures.healthy_env (Fixtures.message "not { json")
           (Fixtures.metadata 3 7) (Fixtures.start Fixtures.raw_driver) eq_refl).
Defined.

(** C2, as the code has it.  In raw mode the item has options, and their
    sequence field is zero: [unpack] does not store the stream sequence of
    the message.  In structured mode [unpack] returns what the decoder made
    of the body, so the options are the decoder's. *)
Theorem unpack_options
  (env : Env) (m : nats.Msg) (meta : nats.MsgMetadata) (w : World Driver) :
  if consumeAll (self w) then
    exists item options,
      fst (unpack env m meta w) = Returned (Ok item)
      /\ item_Options item = Some options
      /\ opt_seq options = 0%N
  else
    unpack env m meta w
    = (match json_Unmarshal env (nats.Data m) zero_Item with
       | Ok item => Returned (Ok item)
       | Err err => Returned (Err err)
       end, w).
Proof.
  destruct (consumeAll (self w)) eqn:Hmode.
  - rewrite (unpack_consume_all env m meta w Hmode). cbn. eauto.
  - unfold unpack. run_method. rewrite Hmode.
    now destruct (json_Unmarshal env (nats.Data m) zero_Item).
Qed.

(** C2 fails in structured mode: the body [{}] decodes without error into an
    item whose options are nil. *)
Lemma unpack_empty_object_has_nil_options :
  exists item,
    fst (unpack Fixtures.healthy_env (Fixtures.message "{}") (Fixtures.metadata 3 7)
                (Fixtures.start Fixtures.idle_driver))
    = Returned (Ok item)
    /\ item_Options item = None.
Proof. exists zero_Item. split; reflexivity. Qed.

(** A body that carries options decodes into an item that has them; the
    sequence field is not part of the body and stays zero. *)
Lemma unpack_structured_body_with_options :
  fst (unpack Fixtures.healthy_env (Fixtures.message Fixtures.item_body)
              (Fixtures.metadata 3 7) (Fixtures.start Fixtures.idle_driver))
  = Returned
      (Ok {| item_Job := "send-email"; item_Ident := "42";
             item_Payload := EmptyString; item_Headers := ∅;
             item_Options := Some {| opt_Priority := 5; opt_Pipeline := "emails";
                                     opt_Delay := 0; opt_seq := 0%N |} |}).
Proof. vm_compute. reflexivity. Qed.

(** And in raw mode the sequence field does not hold the stream sequence of
    the message: it is 0 for the message with stream sequence 7. *)
Lemma unpack_raw_leaves_sequence_unset :
  exists item options,
    fst (unpack Fixtures.healthy_env (Fixtures.message "{}") (Fixtures.metadata 3 7)
                (Fixtures.start Fixtures.raw_driver))
    = Returned (Ok item)
    /\ item_Options item = Some options
    /\ opt_seq options = 0%N
    /\ nats.Stream (nats.Sequence (Fixtures.metadata 3 7)) = 7%N.
Proof. do 2 eexists. repeat split; reflexivity. Qed.

(** An item without options makes [requeue] panic on the nil pointer. *)
Lemma requeue_nil_options_panics (env : Env) (item : Item) (w : World Driver) :
  item_Options item = None ->
  requeue env item w
  = (Panicked "invalid memory address or nil pointer dereference", w).
Proof. intros Hnil. unfold requeue. run_method. now rewrite Hnil. Qed.

(** ** The life cycle *)

Lemma Run_when_active (env : Env) (p : jobs.Pipeline) (w : World Driver) :
  listeners (self w) = 1 ->
  jobs.Name (pipeline (self w)) = jobs.Name p ->
  Run env p w
  = (Returned None,
     mkWorld (self w)
       (trace w ++ [EvLog WarnLevel "nats listener is already in the active state"])).
Proof.
  intros Hactive Hname. unfold Run. run_method.
  now rewrite (same_name _ _ Hname), Hactive.
Qed.

Lemma Resume_when_active (env : Env) (p : string) (w : World Driver) :
  listeners (self w) = 1 ->
  jobs.Name (pipeline (self w)) = p ->
  Resume env p w
  = (Returned (Some (Str "nats listener is already in the active state")), w).
Proof.
  intros Hactive Hname. unfold Resume. run_method.
  now rewrite (same_name _ _ Hname), Hactive.
Qed.

(** C4.  With the listener counter at 1 and the bound pipeline's name, [Run]
    logs a warning and returns nil, [Resume] returns the already-active
    error; neither touches the driver nor asks for a subscription. *)
Theorem active_Run_succeeds_Resume_fails
  (env : Env) (p : jobs.Pipeline) (w : World Driver) :
  listeners (self w) = 1 ->
  jobs.Name (pipeline (self w)) = jobs.Name p ->
  Run env p w
  = (Returned None,
     mkWorld (self w)
       (trace w ++ [EvLog WarnLevel "nats listener is already in the active state"]))
  /\ Resume env (jobs.Name p) w
  = (Returned (Some (Str "nats listener is already in the active state")), w).
Proof.
  intros Hactive Hname. split.
  - now apply Run_when_active.
  - now apply Resume_when_active.
Qed.

Lemma active_Run_succeeds_Resume_fails_example :
  Run Fixtures.healthy_env Fixtures.emails (Fixtures.start Fixtures.active_driver)
  = (Returned None,
     mkWorld Fixtures.active_driver
       [EvLog WarnLevel "nats listener is already in the active state"])
  /\ Resume Fixtures.healthy_env "emails" (Fixtures.start Fixtures.active_driver)
  = (Returned (Some (Str "nats listener is already in the active state")),
     Fixtures.start Fixtures.active_driver).
Proof.
  exact (active_Run_succeeds_Resume_fails Fixtures.healthy_env Fixtures.emails
           (Fixtures.start Fixtures.active_driver) eq_refl eq_refl).
Defined.

(** C5.  With the listener counter at 0 and the bound pipeline's name,
    [Pause] returns the no-listener error and the world is as before: the
    counter, the subscription handle and the rest of the driver are
    untouched, and no call was made. *)
Theorem idle_Pause_fails (env : Env) (p : string) (w : World Driver) :
  listeners (self w) = 0 ->
  jobs.Name (pipeline (self w)) = p ->
  Pause env p w = (Returned (Some (Str "no active listeners, nothing to pause")), w).
Proof.
  intros Hidle Hname. unfold Pause. run_method.
  now rewrite (same_name _ _ Hname), Hidle.
Qed.

Lemma idle_Pause_fails_example :
  Pause Fixtures.healthy_env "emails" (Fixtures.start Fixtures.idle_driver)
  = (Returned (Some (Str "no active listeners, nothing to pause")),
     Fixtures.start Fixtures.idle_driver).
Proof.
  exact (idle_Pause_fails Fixtures.healthy_env "emails"
           (Fixtures.start Fixtures.idle_driver) eq_refl eq_refl).
Defined.

(** [Run] past its two checks: the counter is raised first, then the
    subscription is attempted; when that fails [Run] returns, and the counter
    stays raised. *)
Lemma Run_starting (env : Env) (p : jobs.Pipeline) (w : World Driver) :
  jobs.Name (pipeline (self w)) = jobs.Name p ->
  listeners (self w) <> 1 ->
  let c := self w in
  let counted := set_listeners ((listeners c + 1) mod 2 ^ 32) c in
  let subscribed := (trace w ++ [subscribe_event c])%list in
  Run env p w =
    match subscribe_answer env w with
    | Err err => (Returned (Some (E "nats_run" err)), mkWorld counted subscribed)
    | Ok s =>
        (Returned None,
         mkWorld (set_sub (Some s) counted)
           (subscribed ++ [EvWorkerStart; EvLog DebugLevel "pipeline was started"]))
    end.
Proof.
  intros Hname Hl. unfold Run, listenerInit, listenerStart, subscribe_answer. run_method.
  rewrite (same_name _ _ Hname).
  destruct (Z.eqb_spec (listeners (self w)) 1) as [|_]; [contradiction|].
  destruct (js_Subscribe env _ _ _ _ _); cbn; [|reflexivity].
  now rewrite <- !app_assoc.
Qed.

(** [Resume] past its two checks: the subscription is attempted first; the
    counter is raised after the worker was started, and not at all when the
    subscription failed. *)
Lemma Resume_starting (env : Env) (p : string) (w : World Driver) :
  jobs.Name (pipeline (self w)) = p ->
  listeners (self w) <> 1 ->
  let c := self w in
  let subscribed := (trace w ++ [subscribe_event c])%list in
  Resume env p w =
    match subscribe_answer env w with
    | Err err => (Returned (Some err), mkWorld c subscribed)
    | Ok s =>
        (Returned None,
         mkWorld (set_listeners ((listeners c + 1) mod 2 ^ 32) (set_sub (Some s) c))
           (subscribed ++ [EvWorkerStart; EvLog DebugLevel "pipeline was resumed"]))
    end.
Proof.
  intros Hname Hl. unfold Resume, listenerInit, listenerStart, subscribe_answer. run_method.
  rewrite (same_name _ _ Hname).
  destruct (Z.eqb_spec (listeners (self w)) 1) as [|_]; [contradiction|].
  destruct (js_Subscribe env _ _ _ _ _); cbn; [|reflexivity].
  now rewrite <- !app_assoc.
Qed.

(** [State] on a driver without subscription asks nothing and reports. *)
Lemma State_without_subscription (env : Env) (w : World Driver) :
  sub (self w) = None ->
  exists st,
    State env w = (Returned (Ok st), w)
    /\ jobs.st_Ready st = ready (listeners (self w)).
Proof.
  intros Hsub. unfold State. run_method. rewrite Hsub. eauto.
Qed.

Lemma ready_iff (r : Z) : ready r = true <-> 0 < r.
Proof. unfold ready. apply Z.ltb_lt. Qed.

(** C3.  [Run] on an idle driver whose subscription attempt fails: the error
    comes back with the counter already at 1, no subscription and no worker.
    [Resume] on the same driver leaves the counter at 0. *)
Theorem Run_counts_listener_before_subscribing :
  Run Fixtures.no_subscription_env Fixtures.emails
      (Fixtures.start Fixtures.idle_driver)
  = (Returned
       (Some (E "nats_run" (Foreign "nats: no responders available for request"))),
     mkWorld (set_listeners 1 Fixtures.idle_driver)
       [EvSubscribe 2%N "default" EmptyString nats.DeliverAll])
  /\ Resume Fixtures.no_subscription_env "emails"
            (Fixtures.start Fixtures.idle_driver)
  = (Returned (Some (Foreign "nats: no responders available for request")),
     mkWorld Fixtures.idle_driver
       [EvSubscribe 2%N "default" EmptyString nats.DeliverAll]).
Proof. split; reflexivity. Qed.

(** C10.  [Run] on an idle driver (counter 0, no subscription) under the
    bound pipeline's name, with the subscription attempt failing: [Run]
    returns the error and leaves the counter at 1, with no subscription and
    no worker started.  From then on, whatever else was traced, [Run] under
    that name returns nil after a warning, without asking for a subscription,
    and [State] reports ready. *)
Theorem failed_Run_leaves_listener_counted
  (env : Env) (p : jobs.Pipeline) (w : World Driver) (err : error) :
  jobs.Name (pipeline (self w)) = jobs.Name p ->
  listeners (self w) = 0 ->
  sub (self w) = None ->
  subscribe_answer env w = Err err ->
  let stuck := set_listeners 1 (self w) in
  Run env p w
  = (Returned (Some (E "nats_run" err)),
     mkWorld stuck (trace w ++ [subscribe_event (self w)]))
  /\ sub stuck = None
  /\ (forall (again : jobs.Pipeline) (tr : list Event),
        jobs.Name again = jobs.Name p ->
        Run env again (mkWorld stuck tr)
        = (Returned None,
           mkWorld stuck
             (tr ++ [EvLog WarnLevel "nats listener is already in the active state"])))
  /\ (forall tr : list Event,
        exists st,
          State env (mkWorld stuck tr) = (Returned (Ok st), mkWorld stuck tr)
          /\ jobs.st_Ready st = true).
Proof.
  intros Hname Hidle Hsub Hfail stuck. repeat split.
  - rewrite (Run_starting env p w Hname) by lia. rewrite Hfail, Hidle. reflexivity.
  - exact Hsub.
  - intros again tr Hagain.
    apply (Run_when_active env again (mkWorld stuck tr)).
    + reflexivity.
    + cbn. congruence.
  - intros tr.
    destruct (State_without_subscription env (mkWorld stuck tr) Hsub) as [st [Hst Hready]].
    exists st. split; [exact Hst|]. rewrite Hready. reflexivity.
Qed.

Lemma failed_Run_leaves_listener_counted_example :
  Run Fixtures.no_subscription_env Fixtures.emails
      (Fixtures.start Fixtures.idle_driver)
  = (Returned
       (Some (E "nats_run" (Foreign "nats: no responders available for request"))),
     mkWorld (set_listeners 1 Fixtures.idle_driver)
       [EvSubscribe 2%N "default" EmptyString nats.DeliverAll])
  /\ Run Fixtures.no_subscription_env Fixtures.emails
         (mkWorld (set_listeners 1 Fixtures.idle_driver)
            [EvSubscribe 2%N "default" EmptyString nats.DeliverAll])
  = (Returned None,
     mkWorld (set_listeners 1 Fixtures.idle_driver)
       [EvSubscribe 2%N "default" EmptyString nats.DeliverAll;
        EvLog WarnLevel "nats listener is already in the active state"])
  /\ exists st,
       State Fixtures.no_subscription_env
             (mkWorld (set_listeners 1 Fixtures.idle_driver)
                [EvSubscribe 2%N "default" EmptyString nats.DeliverAll])
       = (Returned (Ok st),
          mkWorld (set_listeners 1 Fixtures.idle_driver)
            [EvSubscribe 2%N "default" EmptyString nats.DeliverAll])
       /\ jobs.st_Ready st = true.
Proof.
  destruct (failed_Run_leaves_listener_counted Fixtures.no_subscription_env
              Fixtures.emails (Fixtures.start Fixtures.idle_driver)
              (Foreign "nats: no responders available for request")
              eq_refl eq_refl eq_refl eq_refl)
    as [Hfirst [_ [Hagain Hstate]]].
  split; [exact Hfirst|]. split.
  - exact (Hagain Fixtures.emails
             [EvSubscribe 2%N "default" EmptyString nats.DeliverAll] eq_refl).
  - exact (Hstate [EvSubscribe 2%N "default" EmptyString nats.DeliverAll]).
Defined.

(** ** State *)

(** C6, as the code has it.  Without a subscription, or with one whose
    consumer-info query succeeds, [State] returns a report, ready exactly
    when the listener counter is positive.  With a subscription whose query
    fails, [State] returns the query's error and no report. *)
Theorem State_reports_ready_or_fails (env : Env) (w : World Driver) :
  let c := self w in
  match sub c with
  | None =>
      exists st,
        State env w = (Returned (Ok st), w)
        /\ (jobs.st_Ready st = true <-> 0 < listeners c)
  | Some s =>
      let asked := mkWorld c (trace w ++ [EvConsumerInfo s]) in
      match sub_ConsumerInfo env (trace w) s with
      | Err err => State env w = (Returned (Err err), asked)
      | Ok _ =>
          exists st,
            State env w = (Returned (Ok st), asked)
            /\ (jobs.st_Ready st = true <-> 0 < listeners c)
      end
  end.
Proof.
  intros c. destruct (sub c) as [s|] eqn:Hsub.
  - unfold State. run_method. fold c. rewrite Hsub. cbn.
    destruct (sub_ConsumerInfo env (trace w) s) as [[ci|]|err];
      [eexists; split; [reflexivity|apply ready_iff] ..|reflexivity].
  - destruct (State_without_subscription env w Hsub) as [st [Hst Hready]].
    exists st. split; [exact Hst|]. rewrite Hready. apply ready_iff.
Qed.

(** C6 fails when the query fails: an active driver whose consumer cannot be
    queried gets the error from [State], and no report. *)
Lemma State_without_report :
  State Fixtures.no_consumer_info_env (Fixtures.start Fixtures.active_driver)
  = (Returned (Err (Foreign "nats: consumer not found")),
     mkWorld Fixtures.active_driver [EvConsumerInfo 3%N]).
Proof. reflexivity. Qed.

(** ** Construction *)

(** Splits the tests on the fields of the two sections. *)
Ltac field_cases :=
  cbn; unfold merged, with_config_fallback, fill_string, fill_int, fill_bool; cbn;
  repeat match goal with
         | |- context [default _ (?proj ?sec)] => destruct (proj sec); cbn
         end;
  repeat match goal with
         | |- context [String.eqb ?a EmptyString] =>
             is_var a; destruct (String.eqb a EmptyString); cbn
         | |- context [Z.eqb ?a 0] => is_var a; destruct (Z.eqb a 0); cbn
         | |- context [if ?b then _ else _] => is_var b; destruct b; cbn
         end;
  reflexivity.

(** The value two sections leave in a field of the driver [FromConfig]
    returns: the merged value, or the fallback of [InitDefaults] in place of
    a zero. *)
Lemma FromConfig_fields
  (env : Env) (key : string) (secs : gmap string section) (pipe : jobs.Pipeline)
  (w w' : World unit) (d : Driver) :
  FromConfig env key (sections_Configurer secs) pipe w = (Returned (Ok d), w') ->
  exists ks gs,
    secs !! key = Some ks
    /\ secs !! pluginName = Some gs
    /\ forall f, driver_get f d = with_config_fallback f (merged f ks gs).
Proof.
  unfold FromConfig. run_method.
  destruct (secs !! key) as [ks|] eqn:Hks; cbn; [|discriminate].
  destruct (secs !! pluginName) as [gs|] eqn:Hgs; cbn; [|discriminate].
  destruct (nats_Connect env _ _ _) as [c|]; cbn; [|discriminate].
  destruct (conn_JetStream env _ _) as [j|]; cbn; [|discriminate].
  intros Hd. exists ks, gs. split; [reflexivity|]. split; [reflexivity|].
  revert Hd. unfold make_chan. run_method.
  destruct (js_StreamInfo env _ _ _) as [[si|]|missing]; cbn; try discriminate;
    try (destruct missing; cbn; try discriminate;
         destruct (js_AddStream env _ _ _) as [[si|]|]; cbn; try discriminate);
    match goal with |- context [Z.ltb ?x 0 || ?y] => destruct (Z.ltb x 0 || y) end;
    cbn; try discriminate;
    intros [= <- _]; intros f; destruct f; field_cases.
Qed.

(** [FromPipeline] reads every field off the pipeline; the configuration
    [cfg] gives the connection settings only. *)
Lemma FromPipeline_fields
  (env : Env) (name driver : string) (prio : Z) (opts : gmap string option_value)
  (cfg : Configurer) (w w' : World unit) (d : Driver) :
  FromPipeline env (options_Pipeline name driver prio opts) cfg w
  = (Returned (Ok d), w') ->
  forall f, driver_get f d = stored f (pipeline_get f prio opts).
Proof.
  unfold FromPipeline. run_method.
  destruct (Has cfg pluginName); cbn; [|discriminate].
  destruct (UnmarshalKey cfg pluginName None) as [[conf|]|]; cbn; try discriminate.
  destruct (nats_Connect env _ _ _) as [c|]; cbn; [|discriminate].
  destruct (conn_JetStream env _ _) as [j|]; cbn; [|discriminate].
  unfold make_chan. run_method.
  destruct (js_StreamInfo env _ _ _) as [[si|]|missing]; cbn; try discriminate;
    try (destruct missing; cbn; try discriminate;
         destruct (js_AddStream env _ _ _) as [[si|]|]; cbn; try discriminate);
    match goal with |- context [Z.ltb ?x 0 || ?y] => destruct (Z.ltb x 0 || y) end;
    cbn; try discriminate;
    intros [= <- _]; intros f; unfold pipeline_get;
    destruct f; cbn; try reflexivity;
    match goal with
    | |- context [opts !! ?k] => destruct (opts !! k) as [[]|]; reflexivity
    end.
Qed.


(** In [FromConfig] the key's section comes first: it sets the subject to
    orders, the global section to events, and the driver holds orders. *)
Lemma FromConfig_key_section_wins :
  s_subject Fixtures.key_section = Some "orders"
  /\ s_subject Fixtures.global_section = Some "events"
  /\ exists d w',
       FromConfig Fixtures.healthy_env "jobs.pipelines.emails.config"
                  (sections_Configurer Fixtures.sections) Fixtures.emails
                  (Fixtures.start tt)
       = (Returned (Ok d), w')
       /\ subject d = "orders".
Proof.
  split; [reflexivity|]. split; [reflexivity|].
  do 2 eexists. split; [vm_compute; reflexivity|reflexivity].
Qed.



(** * More of the driver

    [EvStopSignal] is the send on the stop channel, taken by the worker.
    The trace shows it once it was taken, not how long the caller waited. *)

Local Open Scope list_scope.

Lemma other_name (a b : string) : a <> b -> negb (String.eqb a b) = true.
Proof. intros Hne. now apply negb_true_iff, String.eqb_neq. Qed.

Lemma workers_app (tr tr' : list Event) :
  workers (tr ++ tr') = workers tr + workers tr'.
Proof.
  induction tr as [|ev tr IH]; cbn; [reflexivity|].
  destruct ev; cbn; lia.
Qed.

(** ** The life cycle, past the guards *)

(** X1.  Under a name that is not the bound pipeline's, [Run], [Pause] and
    [Resume] return the mismatch error and leave the world as it was.  The
    error names the bound pipeline, not the one asked for, and only [Run]
    tags it with its operation. *)
Theorem unbound_name_is_refused (env : Env) (p : jobs.Pipeline) (w : World Driver) :
  jobs.Name (pipeline (self w)) <> jobs.Name p ->
  let bound := jobs.Name (pipeline (self w)) in
  Run env p w
  = (Returned (Some (E "nats_run" (Str ("no such pipeline registered: " +:+ bound)))), w)
  /\ Pause env (jobs.Name p) w
     = (Returned (Some (Str ("no such pipeline: " +:+ bound))), w)
  /\ Resume env (jobs.Name p) w
     = (Returned (Some (Str ("no such pipeline: " +:+ bound))), w).
Proof.
  intros Hne bound. repeat split.
  - unfold Run. run_method. now rewrite (other_name _ _ Hne).
  - unfold Pause. run_method. now rewrite (other_name _ _ Hne).
  - unfold Resume. run_method. now rewrite (other_name _ _ Hne).
Qed.

Lemma unbound_name_is_refused_example :
  Run Fixtures.healthy_env Teardowns.reports (Fixtures.start Fixtures.idle_driver)
  = (Returned (Some (E "nats_run" (Str "no such pipeline registered: emails"))),
     Fixtures.start Fixtures.idle_driver)
  /\ Pause Fixtures.healthy_env "reports" (Fixtures.start Fixtures.idle_driver)
     = (Returned (Some (Str "no such pipeline: emails")),
        Fixtures.start Fixtures.idle_driver)
  /\ Resume Fixtures.healthy_env "reports" (Fixtures.start Fixtures.idle_driver)
     = (Returned (Some (Str "no such pipeline: emails")),
        Fixtures.start Fixtures.idle_driver).
Proof.
  apply (unbound_name_is_refused Fixtures.healthy_env Teardowns.reports
           (Fixtures.start Fixtures.idle_driver)).
  cbn. discriminate.
Defined.

(** X2.  [Run] on an idle driver whose subscription succeeds: the driver
    holds the new subscription with the counter at 1, the worker was started
    after the subscription was made, and a second [Run] right after only logs
    the warning: one subscription, one worker. *)
Theorem idle_Run_starts_one_listener
  (env : Env) (p : jobs.Pipeline) (w : World Driver) (s : nats.Subscription) :
  jobs.Name (pipeline (self w)) = jobs.Name p ->
  listeners (self w) = 0 ->
  subscribe_answer env w = Ok s ->
  let active := set_sub (Some s) (set_listeners 1 (self w)) in
  let started := trace w ++ [subscribe_event (self w); EvWorkerStart;
                             EvLog DebugLevel "pipeline was started"] in
  Run env p w = (Returned None, mkWorld active started)
  /\ Run env p (mkWorld active started)
     = (Returned None,
        mkWorld active
          (started ++ [EvLog WarnLevel "nats listener is already in the active state"])).
Proof.
  intros Hname Hidle Hsub active started. split.
  - rewrite (Run_starting env p w Hname) by lia.
    rewrite Hsub, Hidle. unfold started. now rewrite <- app_assoc.
  - now apply (Run_when_active env p (mkWorld active started)).
Qed.

Lemma idle_Run_starts_one_listener_example :
  Run Fixtures.healthy_env Fixtures.emails (Fixtures.start Fixtures.idle_driver)
  = (Returned None,
     mkWorld Fixtures.active_driver
       [EvSubscribe 2%N "default" EmptyString nats.DeliverAll; EvWorkerStart;
        EvLog DebugLevel "pipeline was started"])
  /\ Run Fixtures.healthy_env Fixtures.emails
         (mkWorld Fixtures.active_driver
            [EvSubscribe 2%N "default" EmptyString nats.DeliverAll; EvWorkerStart;
             EvLog DebugLevel "pipeline was started"])
     = (Returned None,
        mkWorld Fixtures.active_driver
          [EvSubscribe 2%N "default" EmptyString nats.DeliverAll; EvWorkerStart;
           EvLog DebugLevel "pipeline was started";
           EvLog WarnLevel "nats listener is already in the active state"]).
Proof.
  exact (idle_Run_starts_one_listener Fixtures.healthy_env Fixtures.emails
           (Fixtures.start Fixtures.idle_driver) 3%N eq_refl eq_refl eq_refl).
Defined.

(** X3.  A [Resume] whose subscription fails returns the subscription's
    error as it is, without an operation tag, and leaves the driver as it
    was: the counter is not raised and no worker is started. *)
Theorem failed_Resume_changes_nothing
  (env : Env) (p : string) (w : World Driver) (err : error) :
  jobs.Name (pipeline (self w)) = p ->
  listeners (self w) <> 1 ->
  subscribe_answer env w = Err err ->
  Resume env p w
  = (Returned (Some err), mkWorld (self w) (trace w ++ [subscribe_event (self w)])).
Proof.
  intros Hname Hl Hsub. rewrite (Resume_starting env p w Hname Hl). now rewrite Hsub.
Qed.

Lemma failed_Resume_changes_nothing_example :
  Resume Fixtures.no_subscription_env "emails" (Fixtures.start Fixtures.idle_driver)
  = (Returned (Some (Foreign "nats: no responders available for request")),
     mkWorld Fixtures.idle_driver
       [EvSubscribe 2%N "default" EmptyString nats.DeliverAll]).
Proof.
  apply (failed_Resume_changes_nothing Fixtures.no_subscription_env "emails"
           (Fixtures.start Fixtures.idle_driver)).
  - reflexivity.
  - cbn. lia.
  - reflexivity.
Defined.

(** [Pause] past its two checks: with a worker running the stop signal is
    taken and [Pause] goes on; with none [Pause] waits at the send, the
    counter already lowered and the handle not yet cleared. *)
Lemma Pause_stopping (env : Env) (p : string) (w : World Driver) :
  jobs.Name (pipeline (self w)) = p ->
  listeners (self w) <> 0 ->
  let c := self w in
  let drained :=
    match sub c with
    | Some s =>
        EvDrain s ::
        match sub_Drain env (trace w) s with
        | Some _ => [EvLog ErrorLevel "drain error"]
        | None => []
        end
    | None => []
    end in
  let lowered := set_listeners ((listeners c + uint32_max) mod 2 ^ 32) c in
  Pause env p w
  = if Z.ltb 0 (workers (trace w)) then
      (Returned None,
       mkWorld (set_sub None lowered)
         (trace w ++ drained ++ [EvStopSignal; EvLog DebugLevel "pipeline was paused"]))
    else (Blocked "send on stopCh", mkWorld lowered (trace w ++ drained)).
Proof.
  intros Hname Hl. unfold Pause, send_stop. run_method. rewrite (same_name _ _ Hname).
  destruct (Z.eqb_spec (listeners (self w)) 0) as [|_]; [contradiction|].
  destruct (sub (self w)) as [s|]; cbn.
  - destruct (sub_Drain env (trace w) s); cbn; rewrite ?workers_app; cbn;
      rewrite ?Z.add_0_r; destruct (Z.ltb 0 (workers (trace w))); cbn;
      now rewrite <- ?app_assoc.
  - destruct (Z.ltb 0 (workers (trace w))); cbn;
      now rewrite <- ?app_assoc, ?app_nil_r.
Qed.

Lemma lowered_by_one (l : Z) :
  0 < l < 2 ^ 32 -> (l + uint32_max) mod 2 ^ 32 = l - 1.
Proof.
  intros Hl. unfold uint32_max.
  replace (l + (2 ^ 32 - 1)) with (l - 1 + 1 * 2 ^ 32) by lia.
  rewrite Z.mod_add by lia. apply Z.mod_small. lia.
Qed.

(** X4.  [Pause] on a driver that counts a listener and whose worker is
    running returns nil: a failing drain of the subscription is logged and
    not returned.  The counter goes down by one, the stop signal is taken
    after the drain, and the subscription handle is cleared. *)
Theorem counted_Pause_stops_listener (env : Env) (p : string) (w : World Driver) :
  jobs.Name (pipeline (self w)) = p ->
  0 < listeners (self w) < 2 ^ 32 ->
  0 < workers (trace w) ->
  exists drained,
    Pause env p w
    = (Returned None,
       mkWorld (set_sub None (set_listeners (listeners (self w) - 1) (self w)))
         (trace w ++ drained ++ [EvStopSignal; EvLog DebugLevel "pipeline was paused"]))
    /\ match sub (self w) with
       | Some s =>
           drained = [EvDrain s]
           \/ drained = [EvDrain s; EvLog ErrorLevel "drain error"]
       | None => drained = []
       end.
Proof.
  intros Hname Hl Hworker. eexists. split.
  - rewrite (Pause_stopping env p w Hname) by lia. cbv zeta.
    rewrite (ltb_positive _ Hworker), (lowered_by_one _ Hl). reflexivity.
  - destruct (sub (self w)) as [s|]; [|reflexivity].
    destruct (sub_Drain env (trace w) s); auto.
Qed.

Lemma counted_Pause_stops_listener_example :
  exists drained,
    Pause Fixtures.healthy_env "emails" (started Fixtures.idle_driver 3%N)
    = (Returned None,
       mkWorld Fixtures.idle_driver
         (trace (started Fixtures.idle_driver 3%N) ++ drained
          ++ [EvStopSignal; EvLog DebugLevel "pipeline was paused"]))
    /\ (drained = [EvDrain 3%N]
        \/ drained = [EvDrain 3%N; EvLog ErrorLevel "drain error"]).
Proof.
  apply (counted_Pause_stops_listener Fixtures.healthy_env "emails"
           (started Fixtures.idle_driver 3%N)).
  - reflexivity.
  - cbn. lia.
  - cbn. lia.
Defined.

(** A [Pause] that finds no worker waits for ever at the stop signal: it
    does not return, and the counter is lowered already. *)
Lemma Pause_without_worker_blocks (env : Env) (p : string) (w : World Driver) :
  jobs.Name (pipeline (self w)) = p ->
  0 < listeners (self w) < 2 ^ 32 ->
  workers (trace w) <= 0 ->
  exists drained,
    Pause env p w
    = (Blocked "send on stopCh",
       mkWorld (set_listeners (listeners (self w) - 1) (self w)) (trace w ++ drained)).
Proof.
  intros Hname Hl Hnone. eexists.
  rewrite (Pause_stopping env p w Hname) by lia. cbv zeta.
  rewrite (ltb_not_positive _ Hnone), (lowered_by_one _ Hl). reflexivity.
Qed.

(** X5.  [Pause] and then [Resume] on an active driver whose worker is
    running, the new subscription succeeding: the driver is the one before
    the pause with the new subscription in place of the old, counter at 1,
    and a new worker was started after the stop signal of the pause was
    taken. *)
Theorem Pause_then_Resume_restores_listener
  (env : Env) (p : string) (w : World Driver) (s' : nats.Subscription) :
  jobs.Name (pipeline (self w)) = p ->
  listeners (self w) = 1 ->
  0 < workers (trace w) ->
  let paused := snd (Pause env p w) in
  subscribe_answer env paused = Ok s' ->
  fst (Pause env p w) = Returned None
  /\ listeners (self paused) = 0
  /\ sub (self paused) = None
  /\ Resume env p paused
     = (Returned None,
        mkWorld (set_sub (Some s') (self w))
          (trace paused ++ [subscribe_event (self w); EvWorkerStart;
                            EvLog DebugLevel "pipeline was resumed"])).
Proof.
  intros Hname Hactive Hworker paused Hsub.
  assert (Hpause := Pause_stopping env p w Hname). cbv zeta in Hpause.
  rewrite Hactive, (ltb_positive _ Hworker) in Hpause. specialize (Hpause ltac:(lia)).
  change ((1 + uint32_max) mod 2 ^ 32) with 0 in Hpause.
  assert (Hpaused : self paused = set_sub None (set_listeners 0 (self w)))
    by (unfold paused; now rewrite Hpause).
  split; [now rewrite Hpause|]. split; [now rewrite Hpaused|].
  split; [now rewrite Hpaused|].
  rewrite (Resume_starting env p paused) by (rewrite Hpaused; cbn; first [exact Hname | lia]).
  rewrite Hsub, Hpaused. cbn. rewrite <- app_assoc. cbn.
  f_equal. f_equal. destruct (self w). cbn in *. now subst.
Qed.

Lemma Pause_then_Resume_restores_listener_example :
  fst (Pause Fixtures.healthy_env "emails" (started Fixtures.idle_driver 3%N))
  = Returned None
  /\ listeners (self (snd (Pause Fixtures.healthy_env "emails"
                             (started Fixtures.idle_driver 3%N)))) = 0
  /\ sub (self (snd (Pause Fixtures.healthy_env "emails"
                       (started Fixtures.idle_driver 3%N)))) = None
  /\ Resume Fixtures.healthy_env "emails"
            (snd (Pause Fixtures.healthy_env "emails"
                    (started Fixtures.idle_driver 3%N)))
     = (Returned None,
        mkWorld Fixtures.active_driver
          [EvSubscribe 2%N "default" EmptyString nats.DeliverAll; EvWorkerStart;
           EvLog DebugLevel "pipeline was started";
           EvDrain 3%N; EvStopSignal; EvLog DebugLevel "pipeline was paused";
           EvSubscribe 2%N "default" EmptyString nats.DeliverAll; EvWorkerStart;
           EvLog DebugLevel "pipeline was resumed"]).
Proof.
  apply (Pause_then_Resume_restores_listener Fixtures.healthy_env "emails"
           (started Fixtures.idle_driver 3%N) 3%N).
  - reflexivity.
  - reflexivity.
  - cbn. lia.
  - reflexivity.
Defined.

(** ** What holds after any sequence of calls *)

(** Splits a method at its tests and at the answers it asks for. *)
Ltac method_cases :=
  repeat match goal with
         | |- context [workers (_ ++ _)] => rewrite workers_app; cbn
         | |- context [String.eqb ?a ?b] => destruct (String.eqb a b); cbn
         | |- context [Z.eqb ?a ?b] => destruct (Z.eqb_spec a b); cbn
         | |- context [Z.ltb 0 ?a] => destruct (Z.ltb_spec 0 a); cbn
         | |- context [js_Subscribe ?e ?t ?j ?s ?d ?p] =>
             destruct (js_Subscribe e t j s d p); cbn
         | |- context [sub_Drain ?e ?t ?s] => destruct (sub_Drain e t s); cbn
         | |- context [sub_ConsumerInfo ?e ?t ?s] =>
             destruct (sub_ConsumerInfo e t s) as [[?|]|?]; cbn
         | |- context [json_Unmarshal ?e ?d ?i] => destruct (json_Unmarshal e d i); cbn
         | |- context [json_Marshal_Item ?e ?i] => destruct (json_Marshal_Item e i); cbn
         | |- context [MarshalJSON ?j] => destruct (MarshalJSON j); cbn
         | |- context [js_Publish ?e ?t ?j ?s ?d] => destruct (js_Publish e t j s d); cbn
         | |- context [item_Options ?i] => destruct (item_Options i); cbn
         | |- context [consumeAll ?c] => destruct (consumeAll c); cbn
         | |- context [match sub ?c with _ => _ end] => destruct (sub c) eqn:?; cbn
         end.

Ltac unfold_methods :=
  unfold perform, Run, Pause, Resume, Register, State, Push, requeue, unpack,
    listenerInit, listenerStart, send_stop, reconnectHandler, disconnectHandler;
  run_method.

(** One call keeps the invariant, also a call that waits at the stop
    signal. *)
Lemma perform_keeps_invariant (env : Env) (op : Op) (w : World Driver) :
  listener_invariant w -> listener_invariant (snd (perform env op w)).
Proof.
  unfold listener_invariant. intros [Hworkers Hgate].
  destruct op as [p|p|p|p| |J JJ job|item|m meta|url|[err|]]; unfold_methods;
    method_cases; cbn; rewrite ?workers_app; cbn;
    try (split; [lia|
                 destruct Hgate as [[H0 [Hnone Hw]]|[H1 [Hle Hsub]]];
                 [left|right]; repeat split; auto; lia]);
    (destruct Hgate as [[H0 [Hnone Hw]]|[H1 [Hle Hsub]]];
     [try congruence; try lia; rewrite H0 in * |
      try congruence; try lia; rewrite H1 in *]);
    change ((0 + 1) mod 2 ^ 32) with 1;
    change ((1 + uint32_max) mod 2 ^ 32) with 0;
    (split; [lia|]);
    first [ left; repeat split; first [reflexivity | assumption | lia | congruence
                                       | (destruct (sub (self w)); [|reflexivity];
                                          specialize (Hsub ltac:(discriminate)); lia) ]
          | right; repeat split;
            first [reflexivity | lia | congruence
                   | (intros Hheld;
                      first [congruence | lia | (specialize (Hsub Hheld); lia)
                             | (specialize (Hsub ltac:(discriminate)); lia)]) ] ].
Qed.

Lemma perform_all_keeps_invariant (env : Env) (ops : list Op) (w : World Driver) :
  listener_invariant w -> listener_invariant (snd (perform_all env ops w)).
Proof.
  revert w. induction ops as [|op ops IH]; intros w Hinv; [exact Hinv|].
  cbn. unfold bind.
  pose proof (perform_keeps_invariant env op w Hinv) as Hstep.
  destruct (perform env op w) as [[[]|why|on] w1]; cbn in *.
  - apply IH, Hstep.
  - exact Hstep.
  - exact Hstep.
Qed.

(** X6.  From an idle driver with nothing traced, after any sequence of
    calls to [Run], [Pause], [Resume], [Register], [State], [Push],
    [requeue], [unpack] and the connection handlers, with any answers of the
    collaborators: the counter is 0 or 1, a driver whose counter is 0 holds
    no subscription, and the workers started exceed the stop signals sent by
    at most one, and not at all while the counter is 0. *)
Theorem one_listener_at_most (env : Env) (ops : list Op) (c : Driver) :
  listeners c = 0 ->
  sub c = None ->
  let w' := snd (perform_all env ops (mkWorld c [])) in
  (listeners (self w') = 0 \/ listeners (self w') = 1)
  /\ (listeners (self w') = 0 -> sub (self w') = None)
  /\ workers (trace w') <= listeners (self w')
  /\ workers (trace w') <= 1.
Proof.
  intros Hidle Hnone w'.
  destruct (perform_all_keeps_invariant env ops (mkWorld c [])) as [Hworkers Hgate].
  { split; [cbn; lia|left; cbn; auto]. }
  fold w' in Hgate, Hworkers.
  destruct Hgate as [[H0 [Hsub Hw]]|[H1 [Hle _]]]; repeat split; auto; lia.
Qed.

Lemma one_listener_at_most_example :
  let w' := snd (perform_all Fixtures.healthy_env
                   [OpRun Fixtures.emails; OpRun Fixtures.emails; OpResume "emails";
                    OpPause "emails"; OpResume "emails"; OpState]
                   (mkWorld Fixtures.idle_driver [])) in
  (listeners (self w') = 0 \/ listeners (self w') = 1)
  /\ (listeners (self w') = 0 -> sub (self w') = None)
  /\ workers (trace w') <= listeners (self w')
  /\ workers (trace w') <= 1.
Proof.
  exact (one_listener_at_most Fixtures.healthy_env
           [OpRun Fixtures.emails; OpRun Fixtures.emails; OpResume "emails";
            OpPause "emails"; OpResume "emails"; OpState]
           Fixtures.idle_driver eq_refl eq_refl).
Defined.

Lemma perform_keeps_snapshot (env : Env) (op : Op) (w : World Driver) :
  snapshot (self (snd (perform env op w))) = snapshot (self w).
Proof.
  destruct op as [p|p|p|p| |J JJ job|item|m meta|url|[err|]]; unfold_methods;
    method_cases; reflexivity.
Qed.

(** X7.  The settings fixed at construction (subject, stream, prefetch, rate
    limit, the flags, the durable name, priority, and the connection,
    JetStream and channel handles) are the same after any sequence of calls
    to the methods of X6: none of them writes a setting. *)
Theorem settings_never_change (env : Env) (ops : list Op) (w : World Driver) :
  snapshot (self (snd (perform_all env ops w))) = snapshot (self w).
Proof.
  revert w. induction ops as [|op ops IH]; intros w; [reflexivity|].
  cbn. unfold bind.
  pose proof (perform_keeps_snapshot env op w) as Hstep.
  destruct (perform env op w) as [[[]|why|on] w1]; cbn in *.
  - now rewrite IH.
  - exact Hstep.
  - exact Hstep.
Qed.

(** ** Register *)

(** X8.  [Register] always succeeds, rebinds the pipeline and touches
    nothing else: counter, subscription and trace are as before.  A report
    [State] returns right after carries the new pipeline's name, driver and
    priority (as a [uint64]) and the readiness of the counter as it was. *)
Theorem Register_rebinds_pipeline
  (env : Env) (p : jobs.Pipeline) (w : World Driver) :
  let w' := mkWorld (set_pipeline p (self w)) (trace w) in
  Register p w = (Returned None, w')
  /\ listeners (self w') = listeners (self w)
  /\ sub (self w') = sub (self w)
  /\ forall st w'',
       State env w' = (Returned (Ok st), w'') ->
       jobs.st_Pipeline st = jobs.Name p
       /\ jobs.st_Driver st = jobs.Driver p
       /\ jobs.st_Priority st = jobs.Priority p mod 2 ^ 64
       /\ jobs.st_Ready st = ready (listeners (self w)).
Proof.
  intros w'. split; [reflexivity|]. split; [reflexivity|]. split; [reflexivity|].
  intros st w''. unfold State. run_method. method_cases;
    intros [= <- _]; repeat split; reflexivity.
Qed.

Lemma Register_rebinds_pipeline_example :
  Register Teardowns.reports (Fixtures.start Fixtures.active_driver)
  = (Returned None,
     mkWorld (set_pipeline Teardowns.reports Fixtures.active_driver) [])
  /\ exists st w'',
       State Fixtures.healthy_env
             (mkWorld (set_pipeline Teardowns.reports Fixtures.active_driver) [])
       = (Returned (Ok st), w'')
       /\ jobs.st_Pipeline st = "reports"
       /\ jobs.st_Priority st = 18446744073709551615
       /\ jobs.st_Ready st = true.
Proof.
  destruct (Register_rebinds_pipeline Fixtures.healthy_env Teardowns.reports
              (Fixtures.start Fixtures.active_driver))
    as [Hregister [_ [_ Hstate]]].
  split; [exact Hregister|].
  do 2 eexists. split; [vm_compute; reflexivity|].
  destruct (Hstate _ _ eq_refl) as [Hname [_ [Hpriority Hready]]].
  split; [exact Hname|]. split; [exact Hpriority|exact Hready].
Defined.

(** ** Stop *)

Lemma driver_calls_app (tr tr' : list Teardown) :
  driver_calls (tr ++ tr') = driver_calls tr ++ driver_calls tr'.
Proof.
  induction tr as [|t tr IH]; cbn; [reflexivity|].
  destruct t; cbn; now rewrite IH.
Qed.

Lemma Stop_unfolded (env : Env) (tenv : TeardownEnv) (c : Driver) (tr : list Teardown) :
  let waits := Z.ltb 0 (listeners c) && negb (Z.ltb 0 (workers (driver_calls tr))) in
  let ended := tr ++ listener_teardown env c tr in
  let deleted := ended ++ (if deleteStreamOnStop c
                           then [TdDeleteStream (js c) (stream c)] else []) in
  let drained := deleted ++ [TdConnDrain (conn c)] in
  Stop env tenv c tr =
    if waits then (Blocked "send on stopCh", c, tr ++ drain_calls env c tr)
    else
      match (if deleteStreamOnStop c
             then js_DeleteStream tenv ended (js c) (stream c) else None) with
      | Some err => (Returned (Some err), c, deleted)
      | None =>
          match conn_Drain tenv deleted (conn c) with
          | Some err => (Returned (Some err), c, drained)
          | None =>
              (Returned None, set_msgCh None c,
               drained ++ [TdConnClose (conn c);
                           TdCall (EvLog DebugLevel "pipeline was stopped")])
          end
      end.
Proof.
  cbv zeta. unfold Stop, listener_teardown, drain_calls.
  destruct (Z.ltb 0 (listeners c)); cbn;
    [destruct (sub c) as [s|]; cbn;
     [destruct (sub_Drain env (driver_calls tr) s); cbn|]|];
    rewrite ?driver_calls_app, ?workers_app; cbn; rewrite ?Z.add_0_r;
    try destruct (Z.ltb 0 (workers (driver_calls tr))); cbn;
    rewrite <- ?app_assoc, ?app_nil_r; cbn; try reflexivity;
    (destruct (deleteStreamOnStop c); cbn; rewrite <- ?app_assoc, ?app_nil_r; cbn;
     [destruct (js_DeleteStream tenv _ (js c) (stream c)); [reflexivity|]|];
     destruct (conn_Drain tenv _ (conn c)); cbn; rewrite <- ?app_assoc; reflexivity).
Qed.

(** X9.  [Stop] never writes the listener counter, the subscription handle
    or the pipeline, whatever its outcome: a driver that counted a listener
    still counts it after [Stop].  A [Stop] that fails, or that waits at the
    stop signal, leaves the whole driver as it was; a successful one clears
    the intake channel and nothing else.  Nothing already traced is lost. *)
Theorem Stop_keeps_listener_state
  (env : Env) (tenv : TeardownEnv) (c : Driver) (tr : list Teardown) :
  let '(out, c', tr') := Stop env tenv c tr in
  listeners c' = listeners c
  /\ sub c' = sub c
  /\ pipeline c' = pipeline c
  /\ c' = match out with Returned None => set_msgCh None c | _ => c end
  /\ exists calls, tr' = tr ++ calls.
Proof.
  rewrite Stop_unfolded. cbv zeta.
  destruct (_ && _);
    [|destruct (if deleteStreamOnStop c then _ else None);
      [|destruct (conn_Drain tenv _ (conn c))]];
    repeat split; try reflexivity;
    rewrite <- ?app_assoc; eexists; reflexivity.
Qed.

(** X10.  When the stop signal is taken or not due (the counter is not
    positive, or a worker is running), the stream is to be deleted on stop
    and the deletion fails, [Stop] returns the deletion's error as it is,
    right after the call: the connection is neither drained nor closed and
    the driver is unchanged. *)
Theorem Stop_aborts_on_failed_deletion
  (env : Env) (tenv : TeardownEnv) (c : Driver) (tr : list Teardown) (err : error) :
  listeners c <= 0 \/ 0 < workers (driver_calls tr) ->
  deleteStreamOnStop c = true ->
  js_DeleteStream tenv (tr ++ listener_teardown env c tr) (js c) (stream c) = Some err ->
  Stop env tenv c tr
  = (Returned (Some err), c,
     tr ++ listener_teardown env c tr ++ [TdDeleteStream (js c) (stream c)])
  /\ forallb (fun t => negb (is_conn_call t))
             (listener_teardown env c tr ++ [TdDeleteStream (js c) (stream c)])
     = true.
Proof.
  intros Hsignal Hflag Hfail. split.
  - rewrite Stop_unfolded. cbv zeta. rewrite Hflag, Hfail.
    replace (Z.ltb 0 (listeners c) && negb (Z.ltb 0 (workers (driver_calls tr))))
      with false.
    + now rewrite <- app_assoc.
    + symmetry. destruct Hsignal as [Hidle|Hworker].
      * now rewrite (ltb_not_positive _ Hidle).
      * rewrite (ltb_positive _ Hworker). cbn. apply andb_false_r.
  - rewrite forallb_app. cbn. rewrite andb_true_r.
    unfold listener_teardown, drain_calls.
    destruct (Z.ltb 0 (listeners c)); [|reflexivity].
    destruct (sub c) as [s|]; [|reflexivity].
    now destruct (sub_Drain env (driver_calls tr) s).
Qed.

Lemma Stop_aborts_on_failed_deletion_example :
  Stop Fixtures.healthy_env Teardowns.stream_in_use Teardowns.deleting_driver
       [TdCall EvWorkerStart]
  = (Returned (Some (Foreign "nats: stream not found")), Teardowns.deleting_driver,
     [TdCall EvWorkerStart; TdCall (EvDrain 3%N); TdCall EvStopSignal;
      TdDeleteStream 2%N "default-stream"])
  /\ forallb (fun t => negb (is_conn_call t))
             [TdCall (EvDrain 3%N); TdCall EvStopSignal;
              TdDeleteStream 2%N "default-stream"]
     = true.
Proof.
  apply (Stop_aborts_on_failed_deletion Fixtures.healthy_env Teardowns.stream_in_use
           Teardowns.deleting_driver [TdCall EvWorkerStart]
           (Foreign "nats: stream not found")).
  - right. cbn. lia.
  - reflexivity.
  - reflexivity.
Defined.

(** X11.  [Stop] closes the connection exactly when it returns nil: after a
    failed stream deletion or a failed drain of the connection, and while it
    waits at the stop signal, the connection stays open, and the intake
    channel is cleared only on success. *)
Theorem Stop_closes_iff_it_succeeds
  (env : Env) (tenv : TeardownEnv) (c : Driver) (tr : list Teardown) :
  let '(out, c', tr') := Stop env tenv c tr in
  exists calls,
    tr' = tr ++ calls
    /\ (out = Returned None <-> In (TdConnClose (conn c)) calls)
    /\ (out = Returned None -> msgCh c' = None)
    /\ (out <> Returned None -> msgCh c' = msgCh c).
Proof.
  assert (Hdrain : ~ In (TdConnClose (conn c)) (drain_calls env c tr)).
  { unfold drain_calls. destruct (Z.ltb 0 (listeners c)); [|tauto].
    destruct (sub c) as [s|]; [destruct (sub_Drain env (driver_calls tr) s)|];
      cbn; intros H; repeat (destruct H as [H|H]; [discriminate|]); exact H. }
  assert (Hquiet : ~ In (TdConnClose (conn c)) (listener_teardown env c tr)).
  { unfold listener_teardown. rewrite in_app_iff. intros [H|H]; [exact (Hdrain H)|].
    destruct (Z.ltb 0 (listeners c)); cbn in H;
      repeat (destruct H as [H|H]; [discriminate|]); exact H. }
  rewrite Stop_unfolded. cbv zeta.
  destruct (_ && _);
    [|destruct (deleteStreamOnStop c);
      [destruct (js_DeleteStream tenv _ (js c) (stream c))|];
      try destruct (conn_Drain tenv _ (conn c))];
    rewrite <- ?app_assoc; eexists; (split; [reflexivity|]);
    rewrite ?in_app_iff; cbn;
    first
      [ (* no success: no close among the calls *)
        split; [split; [discriminate|]|split; [discriminate|reflexivity]];
        intros H; exfalso;
        repeat match goal with
               | H : _ \/ _ |- _ => destruct H
               | H : In _ (listener_teardown _ _ _) |- _ => exact (Hquiet H)
               | H : In _ (drain_calls _ _ _) |- _ => exact (Hdrain H)
               | H : _ = _ |- _ => discriminate H
               | H : False |- _ => destruct H
               end
      | (* success: the close is there *)
        split; [split; [intros _; auto 10|reflexivity]
               |split; [reflexivity|congruence]] ].
Qed.

(** X12.  [Stop] drains the subscription exactly when the counter is
    positive and a subscription is held.  Its stop signal is taken exactly
    when the counter is positive and a worker is running; with a positive
    counter and no worker [Stop] waits for ever at the signal, and only
    then. *)
Theorem Stop_ends_listener_iff_counted
  (env : Env) (tenv : TeardownEnv) (c : Driver) (tr : list Teardown) :
  let '(out, _, tr') := Stop env tenv c tr in
  exists calls,
    tr' = tr ++ calls
    /\ (forall s, In (TdCall (EvDrain s)) calls <-> 0 < listeners c /\ sub c = Some s)
    /\ (In (TdCall EvStopSignal) calls
        <-> 0 < listeners c /\ 0 < workers (driver_calls tr))
    /\ ((exists on, out = Blocked on)
        <-> 0 < listeners c /\ workers (driver_calls tr) <= 0).
Proof.
  rewrite Stop_unfolded. cbv zeta. unfold listener_teardown, drain_calls.
  destruct (Z.ltb_spec 0 (listeners c)) as [Hcounted|Hidle];
    destruct (Z.ltb_spec 0 (workers (driver_calls tr))) as [Hworker|Hnone]; cbn;
    (destruct (sub c) as [s0|]; [destruct (sub_Drain env (driver_calls tr) s0)|]);
    try (destruct (deleteStreamOnStop c);
         [destruct (js_DeleteStream tenv _ (js c) (stream c))|];
         try destruct (conn_Drain tenv _ (conn c)));
    rewrite <- ?app_assoc; cbn; eexists; (split; [reflexivity|]); cbn;
    (split; [intros s|split]); (split; intros H);
    repeat match goal with
           | H : _ \/ _ |- _ => destruct H as [?|?]
           | H : _ /\ _ |- _ => destruct H as [? ?]
           | H : exists _, _ |- _ => destruct H as [? ?]
           | H : False |- _ => destruct H
           | H : TdCall (EvDrain _) = TdCall (EvDrain _) |- _ => injection H as ?; subst
           | H : Some _ = Some _ |- _ => injection H as ?; subst
           | H : _ = _ |- _ => discriminate H
           end;
    try lia; try (split; [assumption|reflexivity]); try (split; assumption);
    try (eexists; reflexivity); cbn; auto 10.
Qed.

(** ** Push and State *)

(** X13.  [Push] of a job whose delay is not positive (a negative delay
    passes the test too) serializes the job and publishes the bytes once, to
    the driver's subject.  It returns nil exactly when both steps succeed;
    an error of either step comes back under the operation tag, a failed
    serialization publishes nothing, and the driver is never written. *)
Theorem Push_publishes_once
  (env : Env) (J : Type) (JJ : Job J) (job : J) (w : World Driver) :
  Delay job <= 0 ->
  let c := self w in
  let marshalled := trace w ++ [EvMarshal] in
  match MarshalJSON job with
  | Err err =>
      Push env job w
      = (Returned (Some (E "nats_consumer_push" err)), mkWorld c marshalled)
  | Ok data =>
      Push env job w
      = (Returned
           match js_Publish env marshalled (js c) (subject c) data with
           | Some err => Some (E "nats_consumer_push" err)
           | None => None
           end,
         mkWorld c (marshalled ++ [EvPublish (js c) (subject c) data]))
  end.
Proof.
  intros Hdelay c marshalled. unfold Push. run_method.
  rewrite (ltb_not_positive _ Hdelay).
  destruct (MarshalJSON job) as [data|err]; [|reflexivity].
  subst c marshalled. cbn.
  destruct (js_Publish env _ _ _ data); reflexivity.
Qed.

Lemma Push_publishes_once_example :
  Push Fixtures.healthy_env
       {| Fixtures.job_delay := -5; Fixtures.job_body := "report" |}
       (Fixtures.start Fixtures.idle_driver)
  = (Returned None,
     mkWorld Fixtures.idle_driver
       [EvMarshal; EvPublish 2%N "default" (Fixtures.bytes "report")]).
Proof.
  apply (Push_publishes_once Fixtures.healthy_env Fixtures.job Fixtures.job_Job
           {| Fixtures.job_delay := -5; Fixtures.job_body := "report" |}
           (Fixtures.start Fixtures.idle_driver)).
  cbn. lia.
Defined.

(** X14.  Every report [State] returns has the driver's subject as queue,
    no delayed jobs, a priority within [uint64] (a negative pipeline priority
    wraps around), and as active and reserved counts the consumer's pending
    acknowledgements and waiting pulls when a subscription is held and its
    info is there, 0 and 0 otherwise.  [State] never writes the driver. *)
Theorem State_report_contents
  (env : Env) (w w' : World Driver) (st : jobs.State) :
  State env w = (Returned (Ok st), w') ->
  self w' = self w
  /\ jobs.st_Queue st = subject (self w)
  /\ jobs.st_Delayed st = 0
  /\ 0 <= jobs.st_Priority st < 2 ^ 64
  /\ (jobs.st_Active st, jobs.st_Reserved st)
     = match sub (self w) with
       | Some s =>
           match sub_ConsumerInfo env (trace w) s with
           | Ok (Some ci) => (nats.NumAckPending ci, nats.NumWaiting ci)
           | _ => (0, 0)
           end
       | None => (0, 0)
       end.
Proof.
  unfold State. run_method.
  destruct (sub (self w)) as [s|]; cbn;
    [destruct (sub_ConsumerInfo env (trace w) s) as [[ci|]|err]; cbn|];
    try discriminate; intros [= <- <-]; cbn;
    repeat split; try reflexivity; apply Z.mod_pos_bound; lia.
Qed.

Lemma State_report_contents_example :
  exists st w',
    State Fixtures.healthy_env
          (mkWorld (set_pipeline Teardowns.reports Fixtures.active_driver) [])
    = (Returned (Ok st), w')
    /\ jobs.st_Queue st = "default"
    /\ jobs.st_Delayed st = 0
    /\ 0 <= jobs.st_Priority st < 2 ^ 64
    /\ (jobs.st_Active st, jobs.st_Reserved st) = (4, 1).
Proof.
  do 2 eexists. split; [vm_compute; reflexivity|].
  destruct (State_report_contents Fixtures.healthy_env
              (mkWorld (set_pipeline Teardowns.reports Fixtures.active_driver) [])
              _ _ eq_refl)
    as [_ [Hqueue [Hdelayed [Hpriority Hcounts]]]].
  split; [exact Hqueue|]. split; [exact Hdelayed|].
  split; [exact Hpriority|exact Hcounts].
Defined.

(** ** A failed Run, then Pause *)

(** X15.  After a [Run] on an idle driver whose subscription failed, [Pause]
    under the same name passes both guards although no listener was started:
    it takes the counter back to 0 and then sends the stop signal.  No
    worker is running to take it, so [Pause] never returns: it waits at the
    send, with the counter already lowered and nothing traced after the
    failed subscription. *)
Theorem Pause_after_failed_Run
  (env : Env) (p : jobs.Pipeline) (w : World Driver) (err : error) :
  jobs.Name (pipeline (self w)) = jobs.Name p ->
  listeners (self w) = 0 ->
  sub (self w) = None ->
  workers (trace w) <= 0 ->
  subscribe_answer env w = Err err ->
  let failed := snd (Run env p w) in
  listeners (self failed) = 1
  /\ Pause env (jobs.Name p) failed
     = (Blocked "send on stopCh",
        mkWorld (set_listeners 0 (self failed))
          (trace w ++ [subscribe_event (self w)])).
Proof.
  intros Hname Hidle Hnone Hworkers Hfail failed.
  assert (Hfailed : failed = mkWorld (set_listeners 1 (self w))
                               (trace w ++ [subscribe_event (self w)])).
  { unfold failed. rewrite (Run_starting env p w Hname) by lia.
    now rewrite Hfail, Hidle. }
  rewrite Hfailed. split; [reflexivity|].
  rewrite (Pause_stopping env (jobs.Name p)) by (cbn; first [exact Hname | lia]).
  cbn. rewrite Hnone, workers_app. cbn. rewrite Z.add_0_r.
  rewrite (ltb_not_positive _ Hworkers). now rewrite app_nil_r.
Qed.

Lemma Pause_after_failed_Run_example :
  listeners
    (self (snd (Run Fixtures.no_subscription_env Fixtures.emails
                    (Fixtures.start Fixtures.idle_driver)))) = 1
  /\ Pause Fixtures.no_subscription_env "emails"
       (snd (Run Fixtures.no_subscription_env Fixtures.emails
                 (Fixtures.start Fixtures.idle_driver)))
     = (Blocked "send on stopCh",
        mkWorld Fixtures.idle_driver
          [EvSubscribe 2%N "default" EmptyString nats.DeliverAll]).
Proof.
  apply (Pause_after_failed_Run Fixtures.no_subscription_env Fixtures.emails
           (Fixtures.start Fixtures.idle_driver)
           (Foreign "nats: no responders available for request")).
  - reflexivity.
  - reflexivity.
  - reflexivity.
  - cbn. lia.
  - reflexivity.
Defined.

(** ** Defaults *)

(** X16.  [InitDefaults] is idempotent, and in its result the address, the
    rate limit, the priority, the stream, the subject and the prefetch are
    never at their zero value: a zero that was configured is replaced like
    one that was left out. *)
Theorem InitDefaults_fills_every_zero (c : config) :
  InitDefaults (InitDefaults c) = InitDefaults c
  /\ Addr (InitDefaults c) <> EmptyString
  /\ RateLimit (InitDefaults c) <> 0
  /\ Priority (InitDefaults c) <> 0
  /\ Stream (InitDefaults c) <> EmptyString
  /\ Subject (InitDefaults c) <> EmptyString
  /\ Prefetch (InitDefaults c) <> 0.
Proof.
  destruct c as [addr token user password name ca prio subj strm pre rate daa dn dl dsos dur].
  unfold InitDefaults. cbn.
  destruct (String.eqb_spec addr EmptyString), (Z.eqb_spec rate 0),
    (Z.eqb_spec prio 0), (String.eqb_spec strm EmptyString),
    (String.eqb_spec subj EmptyString), (Z.eqb_spec pre 0); cbn;
    repeat match goal with
           | H : ?x <> EmptyString |- context [String.eqb ?x EmptyString] =>
               rewrite (proj2 (String.eqb_neq x EmptyString) H)
           | H : ?x <> 0 |- context [Z.eqb ?x 0] =>
               rewrite (proj2 (Z.eqb_neq x 0) H)
           end;
    repeat split; try reflexivity; try assumption; try discriminate.
Qed.

(** ** Construction, again *)

(** Splits a constructor at its tests and at the answers it asks for. *)
Ltac constructor_cases :=
  unfold plugin.DriverFromConfig, plugin.DriverFromPipeline,
    FromConfig, FromPipeline, make_chan; run_method;
  repeat match goal with
         | |- context [Has ?c ?k] => destruct (Has c k) eqn:?; cbn
         | |- context [UnmarshalKey ?c ?k ?o] =>
             destruct (UnmarshalKey c k o) as [[?|]|?] eqn:?; cbn
         | |- context [nats_Connect ?e ?h ?a ?o] =>
             destruct (nats_Connect e h a o) eqn:?; cbn
         | |- context [conn_JetStream ?e ?h ?c] =>
             destruct (conn_JetStream e h c) eqn:?; cbn
         | |- context [js_StreamInfo ?e ?h ?j ?n] =>
             destruct (js_StreamInfo e h j n) as [[?|]|?] eqn:?; cbn
         | |- context [js_AddStream ?e ?h ?j ?c] =>
             destruct (js_AddStream e h j c) as [[?|]|?] eqn:?; cbn
         | |- context [Z.ltb ?x 0] => destruct (Z.ltb_spec x 0); cbn
         | |- context [Z.ltb max_chan_size ?x] =>
             destruct (Z.ltb_spec max_chan_size x); cbn
         | |- context [match ?e with ErrStreamNotFound => _ | _ => _ end] =>
             destruct e; cbn
         end.

Lemma FromConfig_fresh
  (env : Env) (key : string) (cfg : Configurer) (pipe : jobs.Pipeline)
  (w w' : World unit) (d : Driver) :
  FromConfig env key cfg pipe w = (Returned (Ok d), w') ->
  exists calls, trace w' = trace w ++ calls /\ fresh pipe calls d.
Proof.
  unfold fresh. constructor_cases; try discriminate;
    intros [= <- <-]; cbn; rewrite <- !app_assoc; cbn;
    eexists; (split; [reflexivity|]); cbn;
    repeat split; try reflexivity; try lia;
    try match goal with |- context [Z.eqb ?x 0] => destruct (Z.eqb x 0); lia end;
    repeat match goal with
           | H : _ \/ _ |- _ => destruct H
           | H : False |- _ => destruct H
           | H : _ = EvAddStream _ _ |- _ =>
               first [discriminate H | injection H as <- <-]
           end; reflexivity.
Qed.

Lemma FromPipeline_fresh
  (env : Env) (cfg : Configurer) (pipe : jobs.Pipeline)
  (w w' : World unit) (d : Driver) :
  FromPipeline env pipe cfg w = (Returned (Ok d), w') ->
  exists calls, trace w' = trace w ++ calls /\ fresh pipe calls d.
Proof.
  unfold fresh. constructor_cases; try discriminate;
    intros [= <- <-]; cbn; rewrite <- !app_assoc; cbn;
    eexists; (split; [reflexivity|]); cbn;
    repeat split; try reflexivity; try lia;
    try match goal with |- context [Z.eqb ?x 0] => destruct (Z.eqb x 0); lia end;
    repeat match goal with
           | H : _ \/ _ |- _ => destruct H
           | H : False |- _ => destruct H
           | H : _ = EvAddStream _ _ |- _ =>
               first [discriminate H | injection H as <- <-]
           end; reflexivity.
Qed.

(** X17.  A driver that [FromConfig] or [FromPipeline] returns is idle: its
    counter is 0, it holds no subscription, and the constructor asked for
    none and started no worker.  It is bound to the pipeline it was given,
    its intake channel has the size of its prefetch, which is not negative,
    and a stream the constructor created is the driver's stream on the
    driver's JetStream context, bound to the driver's subject and no
    other. *)
Theorem constructed_driver_is_fresh
  (env : Env) (key : string) (cfg : Configurer) (pipe : jobs.Pipeline) :
  (forall (w w' : World unit) (d : Driver),
      FromConfig env key cfg pipe w = (Returned (Ok d), w') ->
      exists calls, trace w' = trace w ++ calls /\ fresh pipe calls d)
  /\ (forall (w w' : World unit) (d : Driver),
         FromPipeline env pipe cfg w = (Returned (Ok d), w') ->
         exists calls, trace w' = trace w ++ calls /\ fresh pipe calls d).
Proof.
  split; intros w w' d.
  - apply FromConfig_fresh.
  - apply FromPipeline_fresh.
Qed.

Lemma constructed_driver_is_fresh_example :
  exists d1 w1 d2 w2 calls1 calls2,
    FromConfig Fixtures.healthy_env "jobs.pipelines.emails.config"
               (sections_Configurer Fixtures.sections) Fixtures.emails
               (Fixtures.start tt)
    = (Returned (Ok d1), w1)
    /\ FromPipeline Fixtures.healthy_env Fixtures.emails
                    (sections_Configurer Fixtures.sections) (Fixtures.start tt)
       = (Returned (Ok d2), w2)
    /\ trace w1 = [] ++ calls1 /\ fresh Fixtures.emails calls1 d1
    /\ trace w2 = [] ++ calls2 /\ fresh Fixtures.emails calls2 d2
    /\ msgCh d1 = Some 10 /\ msgCh d2 = Some 100.
Proof.
  destruct (constructed_driver_is_fresh Fixtures.healthy_env
              "jobs.pipelines.emails.config"
              (sections_Configurer Fixtures.sections) Fixtures.emails)
    as [Hconfig Hpipeline].
  do 4 eexists.
  match goal with
  | |- exists c1 c2, ?F1 = (Returned (Ok ?d1), ?w1) /\ ?F2 = (Returned (Ok ?d2), ?w2) /\ _ =>
      assert (H1 : F1 = (Returned (Ok d1), w1)) by (vm_compute; reflexivity);
      assert (H2 : F2 = (Returned (Ok d2), w2)) by (vm_compute; reflexivity);
      destruct (Hconfig _ _ _ H1) as [calls1 [Htrace1 Hfresh1]];
      destruct (Hpipeline _ _ _ H2) as [calls2 [Htrace2 Hfresh2]];
      exists calls1, calls2
  end.
  repeat (split; [assumption|]). split; reflexivity.
Defined.

(** X18.  A plugin that [Init] enabled builds its drivers from the
    configuration it was initialised with, and [DriverFromPipeline] gets as
    far as the connection whenever the global section unmarshals: after its
    first log line it connects, to the configured address or to the default
    URL when none is configured, never to an empty address. *)
Theorem enabled_plugin_connects
  (env : Env) (cfg : Configurer) (p : plugin.Plugin) (conf : config)
  (pipe : jobs.Pipeline) (w : World unit) :
  plugin.Init cfg = plugin.Enabled p ->
  UnmarshalKey cfg plugin.pluginName None = Ok (Some conf) ->
  let address := if String.eqb (Addr conf) EmptyString then nats.DefaultURL
                 else Addr conf in
  plugin.cfg p = cfg
  /\ address <> EmptyString
  /\ exists calls,
       trace (snd (plugin.DriverFromPipeline env p pipe w))
       = trace w ++ [EvLog InfoLevel "NATS from Pipeline...";
                     EvConnect address (buildNatsOptions (InitDefaults conf))]
                 ++ calls.
Proof.
  intros Hinit Hconf. cbv zeta. unfold plugin.Init in Hinit.
  destruct (Has cfg plugin.pluginName) eqn:Hhas; cbn in Hinit; [|discriminate].
  injection Hinit as <-. cbn. split; [reflexivity|]. split.
  - destruct (String.eqb_spec (Addr conf) EmptyString) as [|Hset].
    + unfold nats.DefaultURL. intros H. discriminate H.
    + exact Hset.
  - unfold plugin.pluginName in *.
    constructor_cases; unfold pluginName in *; try congruence;
      match goal with
      | H1 : UnmarshalKey _ _ _ = Ok (Some ?a), H2 : UnmarshalKey _ _ _ = Ok (Some ?b)
        |- _ => rewrite H1 in H2; injection H2 as <-
      end;
      rewrite <- !app_assoc; cbn; eexists; reflexivity.
Qed.

Lemma enabled_plugin_connects_example :
  exists p,
    plugin.Init (sections_Configurer Fixtures.sections) = plugin.Enabled p
    /\ exists calls,
         trace (snd (plugin.DriverFromPipeline Fixtures.healthy_env p Fixtures.emails
                       (Fixtures.start tt)))
         = [] ++ [EvLog InfoLevel "NATS from Pipeline...";
                  EvConnect "nats://broker:4222"
                    (buildNatsOptions
                       (InitDefaults
                          (unmarshal_section Fixtures.global_section None)))]
              ++ calls.
Proof.
  eexists. split; [vm_compute; reflexivity|].
  apply (enabled_plugin_connects Fixtures.healthy_env
           (sections_Configurer Fixtures.sections) _
           (unmarshal_section Fixtures.global_section None)
           Fixtures.emails (Fixtures.start tt)).
  - vm_compute. reflexivity.
  - vm_compute. reflexivity.
Defined.

(** X19.  Without a global section the plugin is disabled and neither
    constructor attempts a connection: each returns a configuration error
    under its operation tag, having made no call but its first log line.
    [FromConfig] answers so whether or not the key's own section exists. *)
Theorem missing_global_section
  (env : Env) (cfg : Configurer) (key : string) (pipe : jobs.Pipeline) (w : World unit) :
  Has cfg pluginName = false ->
  plugin.Init cfg = plugin.Disabled
  /\ FromPipeline env pipe cfg w
     = (Returned (Err (E "new_nats_pipeline_consumer" no_global_configuration)),
        mkWorld (self w) (trace w ++ [EvLog InfoLevel "NATS from Pipeline..."]))
  /\ FromConfig env key cfg pipe w
     = (Returned
          (Err (E "new_nats_consumer"
                  (if Has cfg key then no_global_configuration
                   else Str ("no configuration by provided key: " +:+ key)))),
        mkWorld (self w) (trace w ++ [EvLog InfoLevel "NATS fromConfig..."])).
Proof.
  intros Hmissing. repeat split.
  - unfold plugin.Init, plugin.pluginName. fold pluginName. now rewrite Hmissing.
  - unfold FromPipeline. run_method. now rewrite Hmissing.
  - unfold FromConfig. run_method. rewrite Hmissing.
    now destruct (Has cfg key).
Qed.

Lemma missing_global_section_example :
  plugin.Init Teardowns.empty_Configurer = plugin.Disabled
  /\ FromPipeline Fixtures.healthy_env Fixtures.emails Teardowns.empty_Configurer
                  (Fixtures.start tt)
     = (Returned (Err (E "new_nats_pipeline_consumer" no_global_configuration)),
        mkWorld tt [EvLog InfoLevel "NATS from Pipeline..."])
  /\ FromConfig Fixtures.healthy_env "jobs.pipelines.emails.config"
                Teardowns.empty_Configurer Fixtures.emails (Fixtures.start tt)
     = (Returned
          (Err (E "new_nats_consumer"
                  (Str "no configuration by provided key: jobs.pipelines.emails.config"))),
        mkWorld tt [EvLog InfoLevel "NATS fromConfig..."]).
Proof.
  exact (missing_global_section Fixtures.healthy_env Teardowns.empty_Configurer
           "jobs.pipelines.emails.config" Fixtures.emails (Fixtures.start tt) eq_refl).
Defined.

(** X20.  A constructor creates a stream only after the stream-info query
    said the stream was not found: when the query never answers so (the
    stream is there, or the query fails otherwise), neither constructor
    calls [AddStream], whatever else happens. *)
Theorem stream_created_only_when_missing
  (env : Env) (key : string) (cfg : Configurer) (pipe : jobs.Pipeline) (w : World unit) :
  (forall h j name, js_StreamInfo env h j name <> Err ErrStreamNotFound) ->
  (exists calls,
      trace (snd (FromConfig env key cfg pipe w)) = trace w ++ calls
      /\ forallb (fun ev => negb (is_add_stream ev)) calls = true)
  /\ (exists calls,
         trace (snd (FromPipeline env pipe cfg w)) = trace w ++ calls
         /\ forallb (fun ev => negb (is_add_stream ev)) calls = true).
Proof.
  intros Hfound. split.
  all: constructor_cases;
    try match goal with
        | H : js_StreamInfo _ _ _ _ = Err ErrStreamNotFound |- _ =>
            exfalso; exact (Hfound _ _ _ H)
        end;
    rewrite <- ?app_assoc; cbn; eexists; (split; [reflexivity|reflexivity]).
Qed.

Lemma stream_created_only_when_missing_example :
  (exists calls,
      trace (snd (FromConfig Fixtures.healthy_env "jobs.pipelines.emails.config"
                    (sections_Configurer Fixtures.sections) Fixtures.emails
                    (Fixtures.start tt)))
      = [] ++ calls
      /\ forallb (fun ev => negb (is_add_stream ev)) calls = true)
  /\ (exists calls,
         trace (snd (FromPipeline Fixtures.healthy_env Fixtures.emails
                       (sections_Configurer Fixtures.sections) (Fixtures.start tt)))
         = [] ++ calls
         /\ forallb (fun ev => negb (is_add_stream ev)) calls = true).
Proof.
  apply (stream_created_only_when_missing Fixtures.healthy_env
           "jobs.pipelines.emails.config" (sections_Configurer Fixtures.sections)
           Fixtures.emails (Fixtures.start tt)).
  intros h j name. cbn. discriminate.
Defined.

(** X21.  A negative prefetch option makes [FromPipeline] panic on the size
    of the intake channel instead of returning an error, and it does so after
    the connection was opened and the stream looked up: no driver comes back
    to close that connection. *)
Theorem negative_prefetch_panics
  (env : Env) (cfg : Configurer) (pipe : jobs.Pipeline) (w : World unit)
  (conf : config) (c : nats.Conn) (j : nats.JetStreamContext) (si : nats.StreamInfo) :
  Has cfg pluginName = true ->
  UnmarshalKey cfg pluginName None = Ok (Some conf) ->
  (forall h addr opts, nats_Connect env h addr opts = Ok c) ->
  (forall h, conn_JetStream env h c = Ok j) ->
  (forall h name, js_StreamInfo env h j name = Ok (Some si)) ->
  jobs.Int pipe pipePrefetch 100 < 0 ->
  FromPipeline env pipe cfg w
  = (Panicked "makechan: size out of range",
     mkWorld (self w)
       (trace w ++ [EvLog InfoLevel "NATS from Pipeline...";
                    EvConnect (Addr (InitDefaults conf))
                              (buildNatsOptions (InitDefaults conf));
                    EvJetStream c;
                    EvStreamInfo j (jobs.String pipe pipeStream "default-stream")])).
Proof.
  intros Hhas Hconf Hconnect Hjs Hinfo Hnegative.
  unfold FromPipeline, make_chan. run_method.
  rewrite Hhas. cbn. rewrite Hconf. cbn. rewrite Hconnect. cbn.
  rewrite Hjs. cbn. rewrite Hinfo. cbn.
  destruct (Z.ltb_spec (jobs.Int pipe pipePrefetch 100) 0); [|lia].
  now rewrite <- !app_assoc.
Qed.

Lemma negative_prefetch_panics_example :
  FromPipeline Fixtures.healthy_env
               (options_Pipeline "emails" "nats" 10 {[ "prefetch" := VInt (-1) ]})
               (sections_Configurer Fixtures.sections) (Fixtures.start tt)
  = (Panicked "makechan: size out of range",
     mkWorld tt
       [EvLog InfoLevel "NATS from Pipeline...";
        EvConnect "nats://broker:4222"
          (buildNatsOptions
             (InitDefaults (unmarshal_section Fixtures.global_section None)));
        EvJetStream 1%N;
        EvStreamInfo 2%N "default-stream"]).
Proof.
  rewrite (negative_prefetch_panics Fixtures.healthy_env
             (sections_Configurer Fixtures.sections)
             (options_Pipeline "emails" "nats" 10 {[ "prefetch" := VInt (-1) ]})
             (Fixtures.start tt)
             (unmarshal_section Fixtures.global_section None) 1%N 2%N
             Fixtures.stream_info);
    vm_compute; reflexivity.
Defined.
